(** * MCCI Catena SGPC3 driver: command descriptors, CRC-8, transaction timing

    A shallow embedding of [MCCI_Catena_SGPC3.h] and [MCCI_Catena_SGPC3.cpp].
    Fixed-width C++ integers are values of [Z] with the wrap-around written
    out ([u8], [u16], [u32]); the sensor object is a record, and the Arduino
    collaborators ([millis()], [delay()], [TwoWire]) are a scripted [World]
    threaded through a small state monad. *)

From Stdlib Require Import ZArith List Bool Lia.
From coqutil Require Import Z.bitblast.
Import ListNotations.

Local Open Scope Z_scope.

(** ** Fixed-width integers *)

Definition u8 (z : Z) : Z := z mod 2 ^ 8.
Definition u16 (z : Z) : Z := z mod 2 ^ 16.
Definition u32 (z : Z) : Z := z mod 2 ^ 32.

Definition is_u8 (z : Z) : Prop := 0 <= z < 2 ^ 8.

(** ** [class cSGPC3_cmds]: packed command descriptors *)

Module cSGPC3_cmds.

(** [enum class Command_t : std::uint32_t]: the packed 32-bit constant. *)
Definition Command_t := Z.

Definition kCommandMask : Z := Z.shiftl 0x3FFF 0.
Definition kParamLenMask : Z := Z.shiftl 0x1 16.
Definition kResponseLenMask : Z := Z.shiftl 0x7 17.
Definition kFeatureMask : Z := Z.shiftl 0xF 20.
Definition kDelayMask : Z := Z.shiftl 0xFF 24.

(** [CommandInit(code, paramLen, responseLen, delayMs, featureSet)].
    [code] is a [uint16_t] and the other arguments are [uint8_t]s: the
    definition stands for the code on arguments within those types, and
    the theorems about it say so in their hypotheses.
    [paramLen] and [responseLen] are byte counts (CRC included); the
    descriptor keeps them divided by three. *)
Definition CommandInit (code paramLen responseLen delayMs featureSet : Z) : Command_t :=
  u32 (Z.lor (Z.lor (Z.lor (Z.lor
        (Z.land code kCommandMask)
        (Z.land (u32 (Z.shiftl (u32 (paramLen / 3)) 16)) kParamLenMask))
        (Z.land (u32 (Z.shiftl (u32 (responseLen / 3)) 17)) kResponseLenMask))
        (Z.land (u32 (Z.shiftl (u32 featureSet) 20)) kFeatureMask))
        (Z.land (u32 (Z.shiftl (u32 delayMs) 24)) kDelayMask)).

Definition getCommand (c : Command_t) : Z :=
  u16 (Z.land (u16 c) kCommandMask).

Definition getParameterLength (c : Command_t) : Z :=
  u8 (Z.shiftr (Z.land (u32 c) kParamLenMask) 16).

Definition getResponseLength (c : Command_t) : Z :=
  u8 (Z.shiftr (Z.land (u32 c) kResponseLenMask) 17).

Definition getFeatureSet (c : Command_t) : Z :=
  u8 (Z.shiftr (Z.land (u32 c) kFeatureMask) 20).

Definition getDelayMs (c : Command_t) : Z :=
  u32 (Z.shiftr (Z.land (u32 c) kDelayMask) 24).

(** The enumerators of [Command_t], in numerical order. *)
Module Command.
Definition measure_tvoc : Command_t := CommandInit 0x2008 0 3 50 0.
Definition get_tvoc_baseline : Command_t := CommandInit 0x2015 0 3 10 0.
Definition set_tvoc_baseline : Command_t := CommandInit 0x201e 3 0 10 0.
Definition get_feature_set_version : Command_t := CommandInit 0x202f 0 3 10 0.
Definition measure_test : Command_t := CommandInit 0x2032 0 3 220 0.
Definition measure_tvoc_and_raw : Command_t := CommandInit 0x2046 0 6 50 0.
Definition measure_raw : Command_t := CommandInit 0x204d 0 3 50 0.
Definition set_absolute_humidity : Command_t := CommandInit 0x2061 3 0 10 6.
Definition set_power_mode : Command_t := CommandInit 0x209f 3 0 10 6.
Definition tvoc_init_continuous : Command_t := CommandInit 0x20ae 0 0 10 0.
Definition get_tvoc_inceptive_baseline : Command_t := CommandInit 0x20b3 0 3 10 5.
Definition get_serial_id : Command_t := CommandInit 0x3682 0 9 1 0.
End Command.

End cSGPC3_cmds.

Import cSGPC3_cmds.

(** ** [cSGPC3::crc]: the checksum engine *)

Definition crcTable : list Z :=
  [ 0x00; 0x31; 0x62; 0x53; 0xc4; 0xf5; 0xa6; 0x97;
    0xb9; 0x88; 0xdb; 0xea; 0x7d; 0x4c; 0x1f; 0x2e ].

Definition crcTable_at (p : Z) : Z := nth (Z.to_nat p) crcTable 0.

(** One turn of the loop body: the two nibbles of byte [b]. *)
Definition crc_byte (crc8 b : Z) : Z :=
  (* calculate first nibble *)
  let p := u8 (Z.shiftr (Z.lxor b crc8) 4) in
  let crc8 := u8 (Z.lxor (Z.shiftl crc8 4) (crcTable_at p)) in
  (* calculate second nibble *)
  let p := u8 (Z.land (Z.lxor (Z.shiftr crc8 4) b) 0xF) in
  u8 (Z.lxor (Z.shiftl crc8 4) (crcTable_at p)).

(** [crc(buf, nBuf, crc8)].  [buf] is the memory from the pointer onwards,
    so [buf + k] is [skipn k buf]; the loop counts [nBuf] down and advances
    the pointer.  A read beyond the list (undefined in C++) yields 0.
    [crc8] is a [uint8_t]: the definition stands for the code on an initial
    value in 0..255. *)
Fixpoint crc (buf : list Z) (nBuf : nat) (crc8 : Z) : Z :=
  match nBuf with
  | O => crc8
  | S i => crc (tl buf) i (crc_byte crc8 (hd 0 buf))
  end.

(** The reference the table is meant to implement: bit-at-a-time CRC-8 with
    generator x^8 + x^5 + x^4 + 1 (0x31), most significant bit first, the
    byte XORed into the accumulator, no final XOR. *)
Definition crc8_shift (acc : Z) : Z :=
  if Z.testbit acc 7
  then u8 (Z.lxor (Z.shiftl acc 1) 0x31)
  else u8 (Z.shiftl acc 1).

Definition crc8_bitwise_byte (acc b : Z) : Z :=
  Nat.iter 8 crc8_shift (Z.lxor acc b).

Definition crc8_bitwise (bytes : list Z) (seed : Z) : Z :=
  fold_left crc8_bitwise_byte bytes seed.

(** Bit-at-a-time CRC of a single nibble placed in the high four bits. *)
Definition crc8_bitwise_nibble (i : Z) : Z :=
  Nat.iter 4 crc8_shift (Z.shiftl i 4).

(** ** The collaborators: clock, sleep and I2C bus *)

Inductive BusEvent : Type :=
| EvTransmit (address : Z) (bytes : list Z) (status : Z)
| EvRequest (address : Z) (quantity : Z) (returned : Z)
| EvDelay (ms : Z).

(** Everything the driver does not control.  The three scripts say what the
    next calls of [millis()], [endTransmission()] and [requestFrom()] will
    observe; [indeterminate] is what uninitialised locals happen to hold;
    [trace] records what the driver did, newest event first. *)
Record World : Type := mkWorld {
  clock : list Z;
  endStatus : list Z;
  device : list (list Z);
  indeterminate : list Z;
  txAddress : Z;
  txBuffer : list Z;
  rxBuffer : list Z;
  trace : list BusEvent
}.

Inductive PowerMode_t : Type := UltraLow | Low.

Definition PowerMode_to_Z (m : PowerMode_t) : Z :=
  match m with UltraLow => 0 | Low => 1 end.

(** [Error_t]: the header's four codes and the four the implementation
    file returns besides. *)
Inductive Error_t : Type :=
| Success | Failure | InvalidParmameter | NotSupported
| WriteError | ReadError | BadCRC | WrongDeviceType.

Definition isSuccess (e : Error_t) : bool :=
  match e with Success => true | _ => false end.

(** The data members of [class cSGPC3] ([m_wire] is the [World]). *)
Record cSGPC3 : Type := mkSGPC3 {
  m_powerMode : PowerMode_t;
  m_tAvail : Z;
  m_featureSet : Z
}.

Definition kAddress : Z := 0x58.
Definition kTpuMs : Z := 600.

(** *** A state monad over the object and its world; [None] is a wait loop
    that exhausted its budget of iterations. *)

Definition St : Type := (cSGPC3 * World)%type.
Definition M (A : Type) : Type := St -> option (A * St).

Definition ret {A : Type} (a : A) : M A := fun st => Some (a, st).

Definition bind {A B : Type} (m : M A) (k : A -> M B) : M B :=
  fun st => match m st with
            | Some (a, st') => k a st'
            | None => None
            end.

Declare Scope sgpc3_scope.
Delimit Scope sgpc3_scope with sgpc3.
Notation "x <- c ;; k" := (bind c (fun x => k))
  (at level 61, c at next level, right associativity) : sgpc3_scope.
Notation "c ;; k" := (bind c (fun _ => k))
  (at level 61, right associativity) : sgpc3_scope.
Local Open Scope sgpc3_scope.

Definition this : M cSGPC3 := fun st => Some (fst st, st).
Definition put_this (f : cSGPC3 -> cSGPC3) : M unit :=
  fun st => Some (tt, (f (fst st), snd st)).
Definition world (f : World -> World) : M unit :=
  fun st => Some (tt, (fst st, f (snd st))).

Definition set_powerMode (m : PowerMode_t) : M unit :=
  put_this (fun o => mkSGPC3 m (m_tAvail o) (m_featureSet o)).
Definition set_tAvail (t : Z) : M unit :=
  put_this (fun o => mkSGPC3 (m_powerMode o) t (m_featureSet o)).
Definition set_featureSet (f : Z) : M unit :=
  put_this (fun o => mkSGPC3 (m_powerMode o) (m_tAvail o) f).

Definition log (e : BusEvent) (w : World) : World :=
  mkWorld (clock w) (endStatus w) (device w) (indeterminate w)
          (txAddress w) (txBuffer w) (rxBuffer w) (e :: trace w).

(** [millis()]: the next 32-bit reading of the millisecond counter. *)
Definition millis : M Z :=
  fun st => let w := snd st in
    Some (u32 (hd 0 (clock w)),
          (fst st, mkWorld (tl (clock w)) (endStatus w) (device w) (indeterminate w)
                           (txAddress w) (txBuffer w) (rxBuffer w) (trace w))).

(** [delay(ms)]. *)
Definition delay (ms : Z) : M unit := world (log (EvDelay ms)).

(** [TwoWire::beginTransmission], [write], [endTransmission], [requestFrom]. *)
Definition beginTransmission (address : Z) : M unit :=
  world (fun w => mkWorld (clock w) (endStatus w) (device w) (indeterminate w)
                          address [] (rxBuffer w) (trace w)).

Definition write (b : Z) : M unit :=
  world (fun w => mkWorld (clock w) (endStatus w) (device w) (indeterminate w)
                          (txAddress w) (txBuffer w ++ [b]) (rxBuffer w) (trace w)).

Definition endTransmission : M Z :=
  fun st => let w := snd st in
    let status := u8 (hd 0 (endStatus w)) in
    Some (status,
          (fst st, mkWorld (clock w) (tl (endStatus w)) (device w) (indeterminate w)
                           (txAddress w) [] (rxBuffer w)
                           (EvTransmit (txAddress w) (txBuffer w) status :: trace w))).

Definition requestFrom (address quantity : Z) : M Z :=
  fun st => let w := snd st in
    let got := firstn (Z.to_nat quantity) (hd [] (device w)) in
    let n := u8 (Z.of_nat (length got)) in
    Some (n,
          (fst st, mkWorld (clock w) (endStatus w) (tl (device w)) (indeterminate w)
                           (txAddress w) (txBuffer w) got
                           (EvRequest address quantity n :: trace w))).

(** An uninitialised local array of [n] bytes: whatever the stack holds. *)
Definition uninitialised (n : nat) : M (list Z) :=
  fun st => let w := snd st in
    Some (map u8 (firstn n (indeterminate w ++ repeat 0 n)),
          (fst st, mkWorld (clock w) (endStatus w) (device w) (skipn n (indeterminate w))
                           (txAddress w) (txBuffer w) (rxBuffer w) (trace w))).

(** ** [class cSGPC3]: the transaction executor and the session *)

(** Modelled from the spec: [getbe16] and [putbe16] are declared in a
    revision of the header that is not among the sources; a word travels as
    a 2-byte big-endian value. *)
Definition getbe16 (buf : list Z) : Z :=
  u16 (Z.lor (Z.shiftl (hd 0 buf) 8) (hd 0 (tl buf))).

Definition putbe16 (buf : list Z) (v : Z) : list Z :=
  u8 (Z.shiftr v 8) :: u8 v :: tl (tl buf).

(** [isSupported(Command_t)]: the capability gate. *)
Definition isSupported (o : cSGPC3) (c : Command_t) : Error_t :=
  if m_featureSet o <? getFeatureSet c then NotSupported else Success.

(** [handleChipReset(when)]. *)
Definition handleChipReset (when : Z) : M unit :=
  set_powerMode Low ;;
  set_tAvail (u32 (when + kTpuMs)).

(** The controlling expression of the wait loop,
    [std::int32_t(this->m_tAvail - tNow < 0)]: the difference of two
    unsigned 32-bit values is compared with 0 as an unsigned value, and the
    truth value of that comparison is what the cast converts. *)
Definition busWaitCondition (tAvail tNow : Z) : Z :=
  if u32 (tAvail - tNow) <? 0 then 1 else 0.

(** [while (std::int32_t(this->m_tAvail - tNow < 0)) tNow = millis();]
    with a budget of [fuel] turns of the body. *)
Fixpoint busWait (fuel : nat) (tNow : Z) : M Z :=
  o <- this ;;
  if busWaitCondition (m_tAvail o) tNow =? 0
  then ret tNow
  else match fuel with
       | O => fun _ => None
       | S fuel' => tNow' <- millis ;; busWait fuel' tNow'
       end.

(** The parameter loop of [sendCommand]: three bytes per word, the pointer
    advanced after each. *)
Fixpoint writeParams (nParam : nat) (pParamBytes : list Z) : M unit :=
  match nParam with
  | O => ret tt
  | S n =>
      write (hd 0 pParamBytes) ;;
      write (hd 0 (tl pParamBytes)) ;;
      write (hd 0 (tl (tl pParamBytes))) ;;
      writeParams n (tl (tl (tl pParamBytes)))
  end.

(** [sendCommand(c, pParamBytes, pResultBytes)].  A null pointer is [None].
    The body never stores through [pResultBytes] (there is no call of the
    bus's [read()]), so the caller's array is what it was before the call.
    The debug prints ([kfDebug] is [false]) are left out. *)
Definition sendCommand (fuel : nat) (c : Command_t)
    (pParamBytes pResultBytes : option (list Z)) : M Error_t :=
  let cmd := getCommand c in
  (* wait for the bus to be available. *)
  tNow <- millis ;;
  tNow <- busWait fuel tNow ;;
  beginTransmission kAddress ;;
  write (u8 (Z.shiftr cmd 8)) ;;
  write (u8 cmd) ;;
  match pParamBytes with
  | Some p => writeParams (Z.to_nat (getParameterLength c)) p
  | None => ret tt
  end ;;
  i2c_result <- endTransmission ;;
  (* update available time. *)
  set_tAvail (u32 (tNow + getDelayMs c + 1)) ;;
  (* check for success. *)
  if negb (i2c_result =? 0) then ret WriteError else
  (* wait. *)
  delay (getDelayMs c) ;;
  let nResult := getResponseLength c in
  if nResult =? 0 then ret Success else
  (* now we need to read the response *)
  nReadFrom <- requestFrom kAddress (nResult * 3) ;;
  if negb (nReadFrom =? nResult * 3) then ret ReadError else
  ret Success.

Definition sendCommandBare (fuel : nat) (c : Command_t) : M Error_t :=
  sendCommand fuel c None None.

Section Driver.

(** What the sources at hand use but do not declare: the default initial
    value of [crc]'s third argument, and the decoding of the feature-set
    word. *)
Variable kCrcInit : Z.
Variable featureSet_getProductType : Z -> Z.
Variable featureSet_getProductVersion : Z -> Z.
Variable ProductType_SGPC3 : Z.

Definition sendCommandWithParam (fuel : nat) (c : Command_t) (param : Z) : M Error_t :=
  paramBuf <- uninitialised 3 ;;
  let paramBuf := putbe16 paramBuf param in
  let paramBuf := [hd 0 paramBuf; hd 0 (tl paramBuf); crc paramBuf 2 kCrcInit] in
  sendCommand fuel c (Some paramBuf) None.

(** A reference parameter is the variable's value before the call, and its
    value after the call is returned beside the result. *)
Definition sendCommandWithResponse (fuel : nat) (c : Command_t) (response : Z)
    : M (Error_t * Z) :=
  responseBuf <- uninitialised 3 ;;
  result <- sendCommand fuel c None (Some responseBuf) ;;
  if negb (isSuccess result) then ret (result, response) else
  if negb (crc responseBuf 2 kCrcInit =? nth 2 responseBuf 0)
  then ret (BadCRC, response) else
  ret (Success, getbe16 responseBuf).

Definition sendCommandWithTwoResponses (fuel : nat) (c : Command_t)
    (response1 response2 : Z) : M (Error_t * (Z * Z)) :=
  responseBuf <- uninitialised 6 ;;
  result <- sendCommand fuel c None (Some responseBuf) ;;
  if negb (isSuccess result) then ret (result, (response1, response2)) else
  if negb (crc responseBuf 2 kCrcInit =? nth 2 responseBuf 0)
  then ret (BadCRC, (response1, response2)) else
  if negb (crc (skipn 3 responseBuf) 2 kCrcInit =? nth 5 responseBuf 0)
  then ret (BadCRC, (response1, response2)) else
  ret (Success, (getbe16 responseBuf, getbe16 (skipn 3 responseBuf))).

Definition sendCommandWithThreeResponses (fuel : nat) (c : Command_t) (response : Z)
    : M (Error_t * Z) :=
  responseBuf <- uninitialised 9 ;;
  result <- sendCommand fuel c None (Some responseBuf) ;;
  if negb (isSuccess result) then ret (result, response) else
  if negb (crc responseBuf 2 kCrcInit =? nth 2 responseBuf 0)
  then ret (BadCRC, response) else
  if negb (crc (skipn 3 responseBuf) 2 kCrcInit =? nth 5 responseBuf 0)
  then ret (BadCRC, response) else
  if negb (crc (skipn 6 responseBuf) 2 kCrcInit =? nth 8 responseBuf 0)
  then ret (BadCRC, response) else
  ret (Success,
       Z.lor (Z.lor (Z.shiftl (getbe16 responseBuf) 32)
                    (Z.shiftl (getbe16 (skipn 3 responseBuf)) 16))
             (getbe16 (skipn 6 responseBuf))).

(** The [sendSynchronous] and [sendAndGetSynchronous] templates.  Their
    [static_assert]s on the command's shape are compile-time checks; the
    test of [eSupported] is [isSuccess], and the one-parameter form calls
    [sendCommandWithParam]. *)
Definition sendSynchronous (fuel : nat) (c : Command_t) : M Error_t :=
  o <- this ;;
  let eSupported := isSupported o c in
  if negb (isSuccess eSupported) then ret eSupported else
  sendCommandBare fuel c.

Definition sendSynchronous_param (fuel : nat) (c : Command_t) (param : Z) : M Error_t :=
  o <- this ;;
  let eSupported := isSupported o c in
  if negb (isSuccess eSupported) then ret eSupported else
  sendCommandWithParam fuel c param.

Definition sendAndGetSynchronous (fuel : nat) (c : Command_t) (response : Z)
    : M (Error_t * Z) :=
  o <- this ;;
  let eSupported := isSupported o c in
  if negb (isSuccess eSupported) then ret (eSupported, response) else
  sendCommandWithResponse fuel c response.

Definition sendAndGetSynchronous2 (fuel : nat) (c : Command_t)
    (response1 response2 : Z) : M (Error_t * (Z * Z)) :=
  o <- this ;;
  let eSupported := isSupported o c in
  if negb (isSuccess eSupported) then ret (eSupported, (response1, response2)) else
  sendCommandWithTwoResponses fuel c response1 response2.

Definition sendAndGetSynchronous64 (fuel : nat) (c : Command_t) (response : Z)
    : M (Error_t * Z) :=
  o <- this ;;
  let eSupported := isSupported o c in
  if negb (isSuccess eSupported) then ret (eSupported, response) else
  sendCommandWithThreeResponses fuel c response.

(** [tvoc_init_continuous()]. *)
Definition tvoc_init_continuous (fuel : nat) : M Error_t :=
  o <- this ;;
  let result := isSupported o Command.tvoc_init_continuous in
  if isSuccess result
  then sendSynchronous fuel Command.tvoc_init_continuous
  else ret result.

(** [measure_tvoc_synchronous(result)]. *)
Definition measure_tvoc_synchronous (fuel : nat) (result : Z) : M (Error_t * Z) :=
  sendAndGetSynchronous fuel Command.measure_tvoc result.

(** [set_power_mode_synchronous(mode)]. *)
Definition set_power_mode_synchronous (fuel : nat) (mode : PowerMode_t) : M Error_t :=
  result <- sendSynchronous_param fuel Command.set_power_mode (u16 (PowerMode_to_Z mode)) ;;
  (if isSuccess result then set_powerMode mode else ret tt) ;;
  ret result.

(** [begin(mode)]. *)
Definition begin (fuel : nat) (mode : PowerMode_t) : M Error_t :=
  (* treat this as a chip reset. *)
  when <- millis ;;
  handleChipReset when ;;
  (* get the version *)
  featureSet <- uninitialised 1 ;;
  let featureSet := u16 (hd 0 featureSet) in
  r <- sendAndGetSynchronous fuel Command.get_feature_set_version featureSet ;;
  let result := fst r in
  let featureSet := snd r in
  set_featureSet 0 ;;
  if negb (isSuccess result) then ret result else
  if negb (featureSet_getProductType featureSet =? ProductType_SGPC3)
  then ret WrongDeviceType else
  let productVersion := u8 (featureSet_getProductVersion featureSet) in
  if productVersion <? 6 then ret WrongDeviceType else
  set_featureSet productVersion ;;
  (* set the mode. *)
  result <- set_power_mode_synchronous fuel mode ;;
  (* start the sensor *)
  result <- tvoc_init_continuous fuel ;;
  ret result.

End Driver.

(** ** Concrete instances used to run the driver

    The feature-set word as the Sensirion data sheet lays it out (product
    type in bits 15..12, with 1 for the SGPC3; product version in the low
    byte), and the data sheet's CRC initial value. *)
Definition sensirion_crc_init : Z := 0xFF.
Definition sensirion_getProductType (fs : Z) : Z := Z.land (Z.shiftr fs 12) 0xF.
Definition sensirion_getProductVersion (fs : Z) : Z := Z.land fs 0xFF.
Definition sensirion_SGPC3 : Z := 1.

Definition idle_bus : World := mkWorld [] [] [] [] 0 [] [] [].

Definition with_clock (c : list Z) (w : World) : World :=
  mkWorld c (endStatus w) (device w) (indeterminate w)
          (txAddress w) (txBuffer w) (rxBuffer w) (trace w).
Definition with_endStatus (s : list Z) (w : World) : World :=
  mkWorld (clock w) s (device w) (indeterminate w)
          (txAddress w) (txBuffer w) (rxBuffer w) (trace w).
Definition with_device (d : list (list Z)) (w : World) : World :=
  mkWorld (clock w) (endStatus w) d (indeterminate w)
          (txAddress w) (txBuffer w) (rxBuffer w) (trace w).
Definition with_indeterminate (g : list Z) (w : World) : World :=
  mkWorld (clock w) (endStatus w) (device w) g
          (txAddress w) (txBuffer w) (rxBuffer w) (trace w).

(** The bytes of [0 .. n-1], for exhaustive checks over a byte or a nibble. *)
Definition below (n : nat) : list Z := map Z.of_nat (seq 0 n).

(** The check that four reference shifts of [x] are one table look-up. *)
Definition nibble_ok (x : Z) : bool :=
  Nat.iter 4 crc8_shift x
  =? u8 (Z.lxor (Z.shiftl x 4) (crcTable_at (Z.shiftr x 4))).

(** The result [sendCommand] selects, read off the scripts: the status of
    the write, then the number of bytes the read request returns. *)
Definition transfer_result (c : Command_t) (w : World) : Error_t :=
  if negb (u8 (hd 0 (endStatus w)) =? 0) then WriteError
  else if getResponseLength c =? 0 then Success
  else if negb (u8 (Z.of_nat (length (firstn (Z.to_nat (getResponseLength c * 3))
                                             (hd [] (device w)))))
                =? getResponseLength c * 3)
       then ReadError
       else Success.

(** A session whose [m_tAvail] lies 32 ms ahead of the clock, across the
    wrap of the 32-bit counter. *)
Definition near_wrap : St :=
  (mkSGPC3 Low 0x00000010 0,
   with_endStatus [0]
     (with_clock [0xFFFFFFF0; 0xFFFFFFF8; 0x00000000; 0x00000008; 0x00000010; 0x00000018]
        idle_bus)).

(** A bus whose device answers with the word 0x1234 and a checksum byte that
    is off by one, while the stack holds an older, consistent group. *)
Definition stale_stack (kCrcInit : Z) : St :=
  (mkSGPC3 Low 0 0,
   with_device [[0x12; 0x34; u8 (crc [0x12; 0x34] 2 kCrcInit + 1)]]
     (with_indeterminate [0xBE; 0xEF; crc [0xBE; 0xEF] 2 kCrcInit]
        (with_endStatus [0] (with_clock [1000] idle_bus)))).

(** A device that reports product type 1 and version 3, every write
    acknowledged; the stack happens to hold the very group it sends. *)
Definition old_firmware : St :=
  (mkSGPC3 UltraLow 0 9,
   with_device [[0x10; 0x03; crc [0x10; 0x03] 2 sensirion_crc_init]]
     (with_indeterminate [0x00; 0x10; 0x03; crc [0x10; 0x03] 2 sensirion_crc_init]
        (with_endStatus [0] (with_clock [1000; 1001] idle_bus)))).

(** A device of version 6 that acknowledges the first and third write and
    answers the second, the power-mode command, with status 2 (address
    NACK); the stack again holds the group the device sends. *)
Definition power_mode_nack : St :=
  (mkSGPC3 Low 0 0,
   with_device [[0x10; 0x06; crc [0x10; 0x06] 2 sensirion_crc_init]]
     (with_indeterminate
        [0x00; 0x10; 0x06; crc [0x10; 0x06] 2 sensirion_crc_init; 0x00; 0x00; 0x00]
        (with_endStatus [0; 2; 0] (with_clock [1000; 1001; 1012; 1023] idle_bus)))).

(** The world [begin] leaves behind on [old_firmware]. *)
Definition old_firmware_after : World :=
  mkWorld [] [] [] [] 0x58 [] [0x10; 0x03; 0xBC]
          [EvRequest 0x58 3 3; EvDelay 10; EvTransmit 0x58 [0x20; 0x2F] 0].

(** ** Version numbers of the library *)

(** [makeVersion(major, minor, patch, local)]: four [uint8_t]s packed into a
    [uint32_t], most significant first. *)
Definition makeVersion (major minor patch local : Z) : Z :=
  Z.lor (Z.lor (Z.lor (u32 (Z.shiftl (u32 major) 24))
                      (u32 (Z.shiftl (u32 minor) 16)))
               (u32 (Z.shiftl (u32 patch) 8)))
        (u32 local).

Definition getMajor (v : Z) : Z := u8 (Z.shiftr v 24).
Definition getMinor (v : Z) : Z := u8 (Z.shiftr v 16).
Definition getPatch (v : Z) : Z := u8 (Z.shiftr v 8).
Definition getLocal (v : Z) : Z := u8 v.

Definition kVersion : Z := makeVersion 0 1 0 0.

(** The twelve enumerators of [Command_t]. *)
Definition command_table : list Command_t :=
  [ Command.measure_tvoc; Command.get_tvoc_baseline; Command.set_tvoc_baseline;
    Command.get_feature_set_version; Command.measure_test;
    Command.measure_tvoc_and_raw; Command.measure_raw;
    Command.set_absolute_humidity; Command.set_power_mode;
    Command.tvoc_init_continuous; Command.get_tvoc_inceptive_baseline;
    Command.get_serial_id ].

(** The bytes the parameter loop of [sendCommand] puts on the bus. *)
Fixpoint param_bytes (nParam : nat) (pParamBytes : list Z) : list Z :=
  match nParam with
  | O => []
  | S n =>
      hd 0 pParamBytes :: hd 0 (tl pParamBytes) :: hd 0 (tl (tl pParamBytes))
      :: param_bytes n (tl (tl (tl pParamBytes)))
  end.

(** The events one call of [sendCommand] adds to the trace, newest first. *)
Definition transfer_events (c : Command_t) (pParamBytes : option (list Z)) (w : World)
    : list BusEvent :=
  let status := u8 (hd 0 (endStatus w)) in
  let sent :=
    EvTransmit kAddress
      ([u8 (Z.shiftr (getCommand c) 8); u8 (getCommand c)]
       ++ match pParamBytes with
          | Some p => param_bytes (Z.to_nat (getParameterLength c)) p
          | None => []
          end)
      status in
  if negb (status =? 0) then [sent]
  else if getResponseLength c =? 0 then [EvDelay (getDelayMs c); sent]
  else [EvRequest kAddress (getResponseLength c * 3)
          (u8 (Z.of_nat (length (firstn (Z.to_nat (getResponseLength c * 3))
                                        (hd [] (device w))))));
        EvDelay (getDelayMs c); sent].

(** One shift of the bit-at-a-time CRC run backwards: the low bit of the
    result tells whether the polynomial was folded in. *)
Definition crc8_unshift (acc : Z) : Z :=
  if Z.odd acc
  then Z.lor (Z.shiftr (Z.lxor acc 0x31) 1) 0x80
  else Z.shiftr acc 1.

(** The object after one transaction: only [m_tAvail] has moved. *)
Definition after_transfer (c : Command_t) (o : cSGPC3) (w : World) : cSGPC3 :=
  mkSGPC3 (m_powerMode o) (u32 (u32 (hd 0 (clock w)) + getDelayMs c + 1)) (m_featureSet o).

(** * Properties *)

(** ** Exhaustive checks over an initial segment of the integers *)

Lemma below_complete (n : nat) (z : Z) :
  0 <= z < Z.of_nat n -> In z (below n).
Proof.
  intros Hz. unfold below. apply in_map_iff.
  exists (Z.to_nat z). split; [lia | apply in_seq; lia].
Qed.

Lemma forallb_below (n : nat) (P : Z -> bool) :
  forallb P (below n) = true ->
  forall z, 0 <= z < Z.of_nat n -> P z = true.
Proof.
  intros Hall z Hz. rewrite forallb_forall in Hall.
  apply Hall, below_complete, Hz.
Qed.

(** ** Command descriptors *)

Section Descriptor.

Lemma masks_as_fields :
  kCommandMask = Z.ones 14 /\
  kParamLenMask = Z.shiftl (Z.ones 1) 16 /\
  kResponseLenMask = Z.shiftl (Z.ones 3) 17 /\
  kFeatureMask = Z.shiftl (Z.ones 4) 20 /\
  kDelayMask = Z.shiftl (Z.ones 8) 24.
Proof. repeat split. Qed.

(** Packing a field of [k] bits at bit [s] of a 32-bit word. *)
Lemma field_pack (v s k : Z) :
  0 <= s -> 0 <= k -> s + k <= 32 ->
  Z.land (u32 (Z.shiftl (u32 v) s)) (Z.shiftl (Z.ones k) s)
  = Z.shiftl (Z.land v (Z.ones k)) s.
Proof. intros Hs Hk Hsk. unfold u32. Z.bitblast. Qed.

(** The descriptor is the disjoint union of its five fields. *)
Lemma CommandInit_fields (code paramLen responseLen delayMs featureSet : Z) :
  CommandInit code paramLen responseLen delayMs featureSet =
  u32 (Z.lor (Z.lor (Z.lor (Z.lor
        (Z.land code (Z.ones 14))
        (Z.shiftl (Z.land (paramLen / 3) (Z.ones 1)) 16))
        (Z.shiftl (Z.land (responseLen / 3) (Z.ones 3)) 17))
        (Z.shiftl (Z.land featureSet (Z.ones 4)) 20))
        (Z.shiftl (Z.land delayMs (Z.ones 8)) 24)).
Proof.
  unfold CommandInit.
  destruct masks_as_fields as (-> & -> & -> & -> & ->).
  rewrite !field_pack by lia. reflexivity.
Qed.

Lemma getCommand_CommandInit (code pl rl d f : Z) :
  getCommand (CommandInit code pl rl d f) = code mod 2 ^ 14.
Proof.
  rewrite CommandInit_fields. unfold getCommand.
  destruct masks_as_fields as (-> & _).
  unfold u16, u32. Z.bitblast.
Qed.

Lemma getParameterLength_CommandInit (code pl rl d f : Z) :
  getParameterLength (CommandInit code pl rl d f) = (pl / 3) mod 2 ^ 1.
Proof.
  rewrite CommandInit_fields. unfold getParameterLength.
  destruct masks_as_fields as (_ & -> & _).
  unfold u8, u32. Z.bitblast.
Qed.

Lemma getResponseLength_CommandInit (code pl rl d f : Z) :
  getResponseLength (CommandInit code pl rl d f) = (rl / 3) mod 2 ^ 3.
Proof.
  rewrite CommandInit_fields. unfold getResponseLength.
  destruct masks_as_fields as (_ & _ & -> & _).
  unfold u8, u32. Z.bitblast.
Qed.

Lemma getFeatureSet_CommandInit (code pl rl d f : Z) :
  getFeatureSet (CommandInit code pl rl d f) = f mod 2 ^ 4.
Proof.
  rewrite CommandInit_fields. unfold getFeatureSet.
  destruct masks_as_fields as (_ & _ & _ & -> & _).
  unfold u8, u32. Z.bitblast.
Qed.

Lemma getDelayMs_CommandInit (code pl rl d f : Z) :
  getDelayMs (CommandInit code pl rl d f) = d mod 2 ^ 8.
Proof.
  rewrite CommandInit_fields. unfold getDelayMs.
  destruct masks_as_fields as (_ & _ & _ & _ & ->).
  unfold u32. Z.bitblast.
Qed.

End Descriptor.

Example command_table_decodes :
  map (fun c => (getCommand c, getParameterLength c, getResponseLength c,
                 getFeatureSet c, getDelayMs c))
      [Command.measure_tvoc; Command.set_power_mode; Command.get_serial_id]
  = [(0x2008, 0, 1, 0, 50); (0x209f, 1, 0, 6, 10); (0x3682, 0, 3, 0, 1)].
Proof. reflexivity. Qed.

(** C3, as stated: the constructor's length arguments do not come back from
    the accessors.  [CommandInit] takes byte counts and the descriptor keeps
    word counts, so a parameter length of 1 is stored as 0. *)
Lemma CommandInit_lengths_are_bytes :
  ~ (forall code paramWordCount responseWordCount delayMs featureLevel : Z,
        0 <= code < 2 ^ 14 -> 0 <= paramWordCount <= 1 ->
        0 <= responseWordCount <= 3 -> 0 <= delayMs <= 255 ->
        0 <= featureLevel <= 15 ->
        let c := CommandInit code paramWordCount responseWordCount delayMs featureLevel in
        getCommand c = code /\
        getParameterLength c = paramWordCount /\
        getResponseLength c = responseWordCount /\
        getFeatureSet c = featureLevel /\
        getDelayMs c = delayMs).
Proof.
  intros H.
  destruct (H 0 1 0 0 0) as (_ & Hp & _); try lia.
  vm_compute in Hp. discriminate Hp.
Qed.

(** C3, amended: when the constructor is given the parameter and response
    lengths in bytes, three per word, every accessor returns the field the
    descriptor was built from: the opcode, the two word counts, the
    feature level and the delay. *)
Theorem CommandInit_round_trip
    (code paramWordCount responseWordCount delayMs featureLevel : Z) :
  0 <= code < 2 ^ 14 -> 0 <= paramWordCount <= 1 ->
  0 <= responseWordCount <= 3 -> 0 <= delayMs <= 255 ->
  0 <= featureLevel <= 15 ->
  let c := CommandInit code (3 * paramWordCount) (3 * responseWordCount)
                       delayMs featureLevel in
  getCommand c = code /\
  getParameterLength c = paramWordCount /\
  getResponseLength c = responseWordCount /\
  getFeatureSet c = featureLevel /\
  getDelayMs c = delayMs.
Proof.
  intros Hc Hp Hr Hd Hf c. subst c.
  rewrite getCommand_CommandInit, getParameterLength_CommandInit,
    getResponseLength_CommandInit, getFeatureSet_CommandInit,
    getDelayMs_CommandInit.
  rewrite !(Z.mul_comm 3), !Z.div_mul by lia.
  repeat split; apply Z.mod_small; lia.
Qed.

Lemma CommandInit_round_trip_set_power_mode :
  getCommand Command.set_power_mode = 0x209f /\
  getParameterLength Command.set_power_mode = 1 /\
  getResponseLength Command.set_power_mode = 0 /\
  getFeatureSet Command.set_power_mode = 6 /\
  getDelayMs Command.set_power_mode = 10.
Proof.
  apply (CommandInit_round_trip 0x209f 1 0 10 6); lia.
Defined.

(** ** The capability gate *)

(** C7: the gate answers [NotSupported] exactly when the session's feature
    level is strictly below the level the descriptor requires; at equal
    levels, and above, it answers [Success]. *)
Theorem isSupported_gate (o : cSGPC3) (c : Command_t) :
  (isSupported o c = NotSupported <-> m_featureSet o < getFeatureSet c) /\
  (isSupported o c = Success <-> getFeatureSet c <= m_featureSet o) /\
  isSupported (mkSGPC3 (m_powerMode o) (m_tAvail o) (getFeatureSet c)) c = Success.
Proof.
  unfold isSupported; cbn [m_featureSet].
  rewrite Z.ltb_irrefl.
  destruct (Z.ltb_spec (m_featureSet o) (getFeatureSet c)).
  - repeat split; intros; try easy; lia.
  - repeat split; intros; try easy; lia.
Qed.

(** ** The checksum engine *)

Lemma u8_range (z : Z) : is_u8 (u8 z).
Proof. unfold is_u8, u8. apply Z.mod_pos_bound. lia. Qed.

Lemma crc_byte_range (crc8 b : Z) : is_u8 (crc_byte crc8 b).
Proof. unfold crc_byte. apply u8_range. Qed.

(** The data sheet's example: the checksum of 0xBEEF is 0x92. *)
Example crc_data_sheet_vector : crc [0xBE; 0xEF] 2 sensirion_crc_init = 0x92.
Proof. reflexivity. Qed.

Lemma crc_app (b1 b2 : list Z) (crc8 : Z) :
  crc (b1 ++ b2) (length b1 + length b2) crc8
  = crc b2 (length b2) (crc b1 (length b1) crc8).
Proof.
  revert crc8. induction b1 as [|b b1 IH]; intros crc8; cbn; [reflexivity|].
  apply IH.
Qed.

Lemma crc_range (buf : list Z) (nBuf : nat) (seed : Z) :
  is_u8 seed -> is_u8 (crc buf nBuf seed).
Proof.
  revert buf seed. induction nBuf as [|n IH]; intros buf seed Hs; cbn [crc].
  - exact Hs.
  - apply IH, crc_byte_range.
Qed.

(** Within the buffer, [crc] is the left fold of the byte step over the
    first [nBuf] bytes. *)
Lemma crc_is_fold (nBuf : nat) :
  forall (buf : list Z) (seed : Z),
    (nBuf <= length buf)%nat ->
    crc buf nBuf seed = fold_left crc_byte (firstn nBuf buf) seed.
Proof.
  induction nBuf as [|n IH]; intros buf seed Hlen; [reflexivity|].
  destruct buf as [|b buf]; cbn [length] in Hlen; [lia|].
  cbn [crc hd tl firstn fold_left]. apply IH. lia.
Qed.

(** C9: the checksum is determined by the [nBuf] bytes checksummed and the
    initial value, and by nothing else: two buffers that agree on their
    first [nBuf] bytes, whatever follows them in memory, give the same
    checksum from the same initial value, for every length; that checksum
    is the fold of the byte step over those bytes and is again a byte; and
    over zero bytes it is the initial value unchanged. *)
Theorem crc_deterministic (buf1 buf2 : list Z) (nBuf : nat) (seed1 seed2 : Z) :
  is_u8 seed1 -> Forall is_u8 buf1 -> Forall is_u8 buf2 ->
  (nBuf <= length buf1)%nat -> (nBuf <= length buf2)%nat ->
  firstn nBuf buf1 = firstn nBuf buf2 -> seed1 = seed2 ->
  crc buf1 nBuf seed1 = crc buf2 nBuf seed2 /\
  crc buf1 nBuf seed1 = fold_left crc_byte (firstn nBuf buf1) seed1 /\
  is_u8 (crc buf1 nBuf seed1) /\
  crc buf1 0 seed1 = seed1 /\
  crc buf2 0 seed2 = seed2.
Proof.
  intros Hseed _ _ Hlen1 Hlen2 Hsame Hs. subst seed2.
  split; [|split; [|split; [|split]]].
  - rewrite (crc_is_fold nBuf buf1 seed1 Hlen1), (crc_is_fold nBuf buf2 seed1 Hlen2).
    rewrite Hsame. reflexivity.
  - apply crc_is_fold, Hlen1.
  - apply crc_range, Hseed.
  - reflexivity.
  - reflexivity.
Qed.

Lemma crc_deterministic_beef :
  crc [0xBE; 0xEF; 0x92; 0x12] 2 0xFF = crc [0xBE; 0xEF; 0x00] 2 0xFF /\
  crc [0xBE; 0xEF; 0x92; 0x12] 2 0xFF
  = fold_left crc_byte (firstn 2 [0xBE; 0xEF; 0x92; 0x12]) 0xFF /\
  is_u8 (crc [0xBE; 0xEF; 0x92; 0x12] 2 0xFF) /\
  crc [0xBE; 0xEF; 0x92; 0x12] 0 0xFF = 0xFF /\
  crc [0xBE; 0xEF; 0x00] 0 0xFF = 0xFF.
Proof.
  apply (crc_deterministic [0xBE; 0xEF; 0x92; 0x12] [0xBE; 0xEF; 0x00] 2 0xFF 0xFF);
    try reflexivity;
    try (repeat constructor; unfold is_u8; lia);
    try (unfold is_u8; lia);
    cbn [length]; lia.
Defined.

Section Refinement.

(** Four shifts of the reference consume the high nibble of the
    accumulator: that is one table look-up.  Checked on all 256 bytes. *)
Lemma four_shifts_are_a_lookup (x : Z) :
  is_u8 x ->
  Nat.iter 4 crc8_shift x = u8 (Z.lxor (Z.shiftl x 4) (crcTable_at (Z.shiftr x 4))).
Proof.
  intros Hx. apply Z.eqb_eq.
  apply (forallb_below 256 nibble_ok); [vm_compute; reflexivity | exact Hx].
Qed.

Lemma crcTable_entries (i : Z) :
  0 <= i < 16 -> crcTable_at i = crc8_bitwise_nibble i.
Proof.
  intros Hi. apply Z.eqb_eq.
  apply (forallb_below 16 (fun i => crcTable_at i =? crc8_bitwise_nibble i));
    [vm_compute; reflexivity | exact Hi].
Qed.

Lemma lxor_u8 (a b : Z) : is_u8 a -> is_u8 b -> is_u8 (Z.lxor a b).
Proof.
  unfold is_u8. intros Ha Hb.
  replace (Z.lxor a b) with (Z.lxor a b mod 2 ^ 8); [apply Z.mod_pos_bound; lia|].
  rewrite <- (Z.mod_small a (2 ^ 8)) at 2 by exact Ha.
  rewrite <- (Z.mod_small b (2 ^ 8)) at 2 by exact Hb.
  Z.bitblast.
Qed.

Lemma high_nibble_u8 (x : Z) : is_u8 x -> u8 (Z.shiftr x 4) = Z.shiftr x 4.
Proof.
  unfold is_u8, u8. intros Hx. apply Z.mod_small.
  rewrite Z.shiftr_div_pow2 by lia.
  change (2 ^ 4) with 16. change (2 ^ 8) with 256 in *.
  split; [apply Z.div_pos; lia | apply Z.div_lt_upper_bound; lia].
Qed.

(** The index of the second look-up, written with the byte still to be
    folded in, is the high nibble of the reference's accumulator. *)
Lemma second_index (c b t : Z) :
  u8 (Z.land (Z.lxor (Z.shiftr (u8 (Z.lxor (Z.shiftl c 4) t)) 4) b) 0xF)
  = Z.shiftr (u8 (Z.lxor (Z.shiftl (Z.lxor b c) 4) t)) 4.
Proof.
  unfold u8. change 0xF with (Z.ones 4). Z.bitblast.
Qed.

(** The low nibble of the byte has left the accumulator after the second
    shift by four, so it plays no part there. *)
Lemma second_shift (c b t t2 : Z) :
  u8 (Z.lxor (Z.shiftl (u8 (Z.lxor (Z.shiftl c 4) t)) 4) t2)
  = u8 (Z.lxor (Z.shiftl (u8 (Z.lxor (Z.shiftl (Z.lxor b c) 4) t)) 4) t2).
Proof.
  unfold u8. Z.bitblast. subst.
  rewrite !(Z.testbit_neg_r _ (i - 4 - 4)) by lia. reflexivity.
Qed.

Lemma crc_byte_refines (crc8 b : Z) :
  is_u8 crc8 -> is_u8 b -> crc_byte crc8 b = crc8_bitwise_byte crc8 b.
Proof.
  intros Hc Hb.
  assert (Hx : is_u8 (Z.lxor b crc8)) by (apply lxor_u8; assumption).
  unfold crc8_bitwise_byte.
  change (Nat.iter 8 crc8_shift ?x) with (Nat.iter 4 crc8_shift (Nat.iter 4 crc8_shift x)).
  rewrite (Z.lxor_comm crc8 b).
  rewrite (four_shifts_are_a_lookup (Z.lxor b crc8)) by exact Hx.
  rewrite four_shifts_are_a_lookup by apply u8_range.
  unfold crc_byte.
  rewrite (high_nibble_u8 _ Hx), second_index.
  apply second_shift.
Qed.

Lemma crc_refines_fold (buf : list Z) :
  Forall is_u8 buf ->
  forall seed, is_u8 seed -> crc buf (length buf) seed = crc8_bitwise buf seed.
Proof.
  unfold crc8_bitwise.
  induction 1 as [|b buf Hb _ IH]; intros seed Hs; cbn [crc length fold_left hd tl].
  - reflexivity.
  - rewrite IH by apply crc_byte_range.
    rewrite crc_byte_refines by assumption. reflexivity.
Qed.

End Refinement.

(** C10: on every sequence of bytes and every 8-bit initial value, the
    table-driven [crc] equals the bit-at-a-time CRC-8 of polynomial 0x31
    (most significant bit first, byte XORed into the accumulator, no final
    XOR), and entry [i] of the 16-entry table is the bit-at-a-time CRC of
    nibble [i] placed in the high four bits. *)
Theorem crc_refines_bitwise (buf : list Z) (seed i : Z) :
  Forall is_u8 buf -> is_u8 seed -> 0 <= i < 16 ->
  crc buf (length buf) seed = crc8_bitwise buf seed /\
  crcTable_at i = crc8_bitwise_nibble i.
Proof.
  intros Hbuf Hseed Hi. split.
  - apply crc_refines_fold; assumption.
  - apply crcTable_entries, Hi.
Qed.

Lemma crc_refines_bitwise_beef :
  crc [0xBE; 0xEF] 2 0xFF = crc8_bitwise [0xBE; 0xEF] 0xFF /\
  crcTable_at 9 = crc8_bitwise_nibble 9.
Proof.
  apply (crc_refines_bitwise [0xBE; 0xEF] 0xFF 9).
  - repeat constructor; unfold is_u8; lia.
  - unfold is_u8; lia.
  - lia.
Defined.

(** ** The transaction executor *)

(** Running the monad one step, leaving the integer operations folded. *)
Ltac run :=
  cbn -[Z.shiftr Z.shiftl Z.mul Z.add Z.sub Z.pow Z.modulo Z.eqb Z.ltb Z.of_nat Z.to_nat
        u8 u16 u32 crc busWait writeParams firstn skipn
        getCommand getDelayMs getResponseLength getParameterLength getFeatureSet].
Ltac run_in H :=
  cbn -[Z.shiftr Z.shiftl Z.mul Z.add Z.sub Z.pow Z.modulo Z.eqb Z.ltb Z.of_nat Z.to_nat
        u8 u16 u32 crc busWait writeParams firstn skipn
        getCommand getDelayMs getResponseLength getParameterLength getFeatureSet] in H.

Section Executor.

Lemma busWaitCondition_never (tAvail tNow : Z) : busWaitCondition tAvail tNow = 0.
Proof.
  unfold busWaitCondition, u32.
  destruct (Z.ltb_spec ((tAvail - tNow) mod 2 ^ 32) 0) as [Hneg|_]; [|reflexivity].
  pose proof (Z.mod_pos_bound (tAvail - tNow) (2 ^ 32)). lia.
Qed.

(** The wait loop leaves at its first test: no further clock reading is
    taken, whatever [m_tAvail] and the time are. *)
Lemma busWait_returns_at_once (fuel : nat) (tNow : Z) (st : St) :
  busWait fuel tNow st = Some (tNow, st).
Proof.
  destruct fuel; cbn; unfold bind, this; cbn;
    rewrite busWaitCondition_never; reflexivity.
Qed.

Lemma writeParams_frame (n : nat) (p : list Z) (o : cSGPC3) (w : World) :
  exists tx,
    writeParams n p (o, w)
    = Some (tt, (o, mkWorld (clock w) (endStatus w) (device w) (indeterminate w)
                            (txAddress w) tx (rxBuffer w) (trace w))).
Proof.
  revert p w. induction n as [|n IH]; intros p w; cbn [writeParams].
  - exists (txBuffer w). destruct w; reflexivity.
  - unfold bind at 1 2 3; cbn.
    destruct (IH (tl (tl (tl p)))
                (mkWorld (clock w) (endStatus w) (device w) (indeterminate w)
                   (txAddress w)
                   (((txBuffer w ++ [hd 0 p]) ++ [hd 0 (tl p)]) ++ [hd 0 (tl (tl p))])
                   (rxBuffer w) (trace w))) as [tx Htx].
    exists tx. exact Htx.
Qed.

(** What one call of [sendCommand] does to the object and to the scripts:
    it always returns, with the result the three tests of the body select. *)
Lemma sendCommand_spec (fuel : nat) (c : Command_t)
    (pParamBytes pResultBytes : option (list Z)) (o : cSGPC3) (w : World) :
  exists w' tx events,
    sendCommand fuel c pParamBytes pResultBytes (o, w)
    = Some (transfer_result c w,
            (mkSGPC3 (m_powerMode o)
                     (u32 (u32 (hd 0 (clock w)) + getDelayMs c + 1))
                     (m_featureSet o), w')) /\
    clock w' = tl (clock w) /\
    endStatus w' = tl (endStatus w) /\
    indeterminate w' = indeterminate w /\
    trace w' = events ++ EvTransmit kAddress tx (u8 (hd 0 (endStatus w))) :: trace w.
Proof.
  unfold sendCommand, transfer_result.
  unfold bind at 1; run.
  unfold bind at 1. rewrite busWait_returns_at_once.
  unfold bind at 1 2 3; run.
  match goal with
  | |- context [bind ?m _ (o, ?w1)] =>
      assert (Hp : exists tx, m (o, w1)
        = Some (tt, (o, mkWorld (clock w1) (endStatus w1) (device w1) (indeterminate w1)
                            (txAddress w1) tx (rxBuffer w1) (trace w1))))
  end.
  { destruct pParamBytes as [p|].
    - apply writeParams_frame.
    - eexists; reflexivity. }
  destruct Hp as [tx Hp]. run_in Hp.
  unfold bind at 1. rewrite Hp.
  unfold bind at 1 2; run.
  destruct (Z.eqb_spec (u8 (hd 0 (endStatus w))) 0) as [Hst|Hst]; cbn [negb].
  - unfold bind at 1; run.
    destruct (Z.eqb_spec (getResponseLength c) 0) as [Hn|Hn].
    + eexists; exists tx, [EvDelay (getDelayMs c)].
      run. repeat split.
    + unfold bind at 1; run.
      match goal with |- context [negb ?b] => destruct b end; cbn [negb];
        eexists; exists tx; eexists [_; _]; run; repeat split.
  - eexists; exists tx, []. run. repeat split.
Qed.

End Executor.

(** C4: every call of [sendCommand] returns, and leaves [m_tAvail] at the
    time read on entry plus the command's delay plus one, modulo 2^32; that
    holds in particular when the write fails, which is exactly when the
    result is [WriteError]. *)
Theorem sendCommand_advances_tAvail (fuel : nat) (c : Command_t)
    (pParamBytes pResultBytes : option (list Z)) (o : cSGPC3) (w : World) :
  exists e st',
    sendCommand fuel c pParamBytes pResultBytes (o, w) = Some (e, st') /\
    m_tAvail (fst st') = u32 (u32 (hd 0 (clock w)) + getDelayMs c + 1) /\
    (e = WriteError <-> u8 (hd 0 (endStatus w)) <> 0).
Proof.
  destruct (sendCommand_spec fuel c pParamBytes pResultBytes o w)
    as (w' & tx & events & Hrun & _).
  eexists; eexists. split; [exact Hrun|]. split; [reflexivity|].
  unfold transfer_result.
  destruct (Z.eqb_spec (u8 (hd 0 (endStatus w))) 0) as [Hst|Hst]; cbn [negb].
  - split; [|contradiction].
    destruct (getResponseLength c =? 0); [discriminate|].
    match goal with |- context [negb ?b] => destruct b end; discriminate.
  - split; [intros _; exact Hst | reflexivity].
Qed.

(** C1, on the claim's own example: with [m_tAvail] = 0x00000010 and the
    clock at 0xFFFFFFF0 the loop condition is 0, and the command is on the
    bus after that single reading of the clock, 32 ms early. *)
Theorem sendCommand_does_not_wait_near_wrap :
  busWaitCondition 0x00000010 0xFFFFFFF0 = 0 /\
  exists w',
    sendCommand 100 Command.tvoc_init_continuous None None near_wrap
    = Some (Success, (mkSGPC3 Low 0xFFFFFFFB 0, w')) /\
    clock w' = [0xFFFFFFF8; 0x00000000; 0x00000008; 0x00000010; 0x00000018] /\
    trace w' = [EvDelay 10; EvTransmit 0x58 [0x20; 0xAE] 0].
Proof.
  split; [reflexivity|].
  eexists. vm_compute. repeat split.
Qed.

Section Responses.

Variable kCrcInit : Z.

Lemma uninitialised_run (n : nat) (o : cSGPC3) (w : World) :
  uninitialised n (o, w)
  = Some (map u8 (firstn n (indeterminate w ++ repeat 0 n)),
          (o, with_indeterminate (skipn n (indeterminate w)) w)).
Proof. reflexivity. Qed.

Lemma transfer_result_with_indeterminate (c : Command_t) (g : list Z) (w : World) :
  transfer_result c (with_indeterminate g w) = transfer_result c w.
Proof. reflexivity. Qed.

(** The verdict of [sendCommandWithResponse] is computed from the local
    array as it was found, never from the bytes the device sent. *)
Lemma sendCommandWithResponse_spec (fuel : nat) (c : Command_t) (response : Z)
    (o : cSGPC3) (w : World) :
  let responseBuf := map u8 (firstn 3 (indeterminate w ++ repeat 0 3)) in
  exists st',
    sendCommandWithResponse kCrcInit fuel c response (o, w)
    = Some (if negb (isSuccess (transfer_result c w)) then (transfer_result c w, response)
            else if negb (crc responseBuf 2 kCrcInit =? nth 2 responseBuf 0)
                 then (BadCRC, response)
                 else (Success, getbe16 responseBuf),
            st').
Proof.
  intros responseBuf. unfold sendCommandWithResponse.
  unfold bind at 1. rewrite uninitialised_run. fold responseBuf.
  unfold bind at 1.
  destruct (sendCommand_spec fuel c None (Some responseBuf) o
              (with_indeterminate (skipn 3 (indeterminate w)) w))
    as (w' & tx & events & Hrun & _).
  rewrite Hrun, transfer_result_with_indeterminate.
  destruct (isSuccess (transfer_result c w)); cbn [negb];
    [destruct (crc responseBuf 2 kCrcInit =? nth 2 responseBuf 0); cbn [negb]|];
    eexists; reflexivity.
Qed.

Lemma u8_idem (z : Z) : u8 (u8 z) = u8 z.
Proof. unfold u8. apply Z.mod_mod. lia. Qed.

Lemma crc_byte_u8 (crc8 b : Z) : u8 (crc_byte crc8 b) = crc_byte crc8 b.
Proof. unfold crc_byte. apply u8_idem. Qed.

End Responses.

(** C2, at a failing input: the device supplies all three bytes of the
    word 0x1234 with a checksum byte that does not match them, yet
    [sendCommandWithResponse] returns [Success] and stores 0xBEEF, the
    group the uninitialised array happened to hold.  Whatever the default
    initial CRC value is. *)
Theorem sendCommandWithResponse_ignores_device (kCrcInit : Z) (fuel : nat) :
  u8 (crc [0x12; 0x34] 2 kCrcInit + 1) <> crc [0x12; 0x34] 2 kCrcInit /\
  transfer_result Command.measure_tvoc (snd (stale_stack kCrcInit)) = Success /\
  exists st',
    sendCommandWithResponse kCrcInit fuel Command.measure_tvoc 0 (stale_stack kCrcInit)
    = Some ((Success, 0xBEEF), st').
Proof.
  split; [|split].
  - cbn [crc hd tl].
    pose proof (crc_byte_range (crc_byte kCrcInit 0x12) 0x34) as Hr.
    unfold is_u8, u8 in *.
    destruct (Z.eq_dec (crc_byte (crc_byte kCrcInit 0x12) 0x34) 255) as [->|Hne];
      [discriminate|].
    rewrite Z.mod_small by lia. lia.
  - reflexivity.
  - unfold stale_stack.
    match goal with |- context [(?o, ?w)] =>
      destruct (sendCommandWithResponse_spec kCrcInit fuel Command.measure_tvoc 0 o w)
        as [st' Hrun]
    end.
    exists st'. rewrite Hrun. f_equal. f_equal.
    change (transfer_result Command.measure_tvoc _) with Success.
    cbn [isSuccess negb with_device with_indeterminate indeterminate firstn app map
         crc hd tl nth].
    rewrite crc_byte_u8, Z.eqb_refl. reflexivity.
Qed.

(** ** The session *)

Section Session.

Variable kCrcInit : Z.
Variable featureSet_getProductType : Z -> Z.
Variable featureSet_getProductVersion : Z -> Z.
Variable ProductType_SGPC3 : Z.

Lemma sendCommandWithParam_spec (fuel : nat) (c : Command_t) (param : Z)
    (o : cSGPC3) (w : World) :
  exists w',
    sendCommandWithParam kCrcInit fuel c param (o, w)
    = Some (transfer_result c w,
            (mkSGPC3 (m_powerMode o)
                     (u32 (u32 (hd 0 (clock w)) + getDelayMs c + 1))
                     (m_featureSet o), w')).
Proof.
  unfold sendCommandWithParam.
  unfold bind at 1. rewrite uninitialised_run.
  match goal with |- context [sendCommand fuel c ?p ?r (o, ?w1)] =>
    destruct (sendCommand_spec fuel c p r o w1) as (w' & tx & events & Hrun & _)
  end.
  exists w'. rewrite Hrun. reflexivity.
Qed.

(** The result of [set_power_mode_synchronous], and the mode it leaves. *)
Lemma set_power_mode_synchronous_spec (fuel : nat) (mode : PowerMode_t)
    (o : cSGPC3) (w : World) :
  exists st',
    set_power_mode_synchronous kCrcInit fuel mode (o, w)
    = Some (if m_featureSet o <? getFeatureSet Command.set_power_mode then NotSupported
            else if negb (u8 (hd 0 (endStatus w)) =? 0) then WriteError
            else Success, st') /\
    m_powerMode (fst st')
    = if (m_featureSet o <? getFeatureSet Command.set_power_mode)
         || negb (u8 (hd 0 (endStatus w)) =? 0)
      then m_powerMode o else mode.
Proof.
  unfold set_power_mode_synchronous, sendSynchronous_param.
  unfold bind at 1 2; cbn [this fst snd]. unfold isSupported.
  destruct (m_featureSet o <? getFeatureSet Command.set_power_mode);
    cbn [isSuccess negb orb].
  - eexists; split; reflexivity.
  - destruct (sendCommandWithParam_spec fuel Command.set_power_mode
                (u16 (PowerMode_to_Z mode)) o w) as (w' & Hrun).
    rewrite Hrun.
    replace (transfer_result Command.set_power_mode w)
      with (if negb (u8 (hd 0 (endStatus w)) =? 0) then WriteError else Success)
      by reflexivity.
    destruct (u8 (hd 0 (endStatus w)) =? 0); cbn [negb isSuccess];
      eexists; split; reflexivity.
Qed.

End Session.

(** C8: [set_power_mode_synchronous] always returns; the stored power mode
    becomes the requested one if the result is [Success] and is the prior
    one for every other result; a failing write gives [WriteError], and a
    feature level below the command's gives [NotSupported]. *)
Theorem set_power_mode_synchronous_keeps_mode_on_failure
    (kCrcInit : Z) (fuel : nat) (mode : PowerMode_t) (o : cSGPC3) (w : World) :
  exists e st',
    set_power_mode_synchronous kCrcInit fuel mode (o, w) = Some (e, st') /\
    m_powerMode (fst st') = (if isSuccess e then mode else m_powerMode o) /\
    e = (if m_featureSet o <? getFeatureSet Command.set_power_mode then NotSupported
         else if negb (u8 (hd 0 (endStatus w)) =? 0) then WriteError
         else Success).
Proof.
  destruct (set_power_mode_synchronous_spec kCrcInit fuel mode o w) as (st' & Hrun & Hmode).
  eexists; exists st'. split; [exact Hrun|]. split; [|reflexivity].
  rewrite Hmode.
  destruct (m_featureSet o <? getFeatureSet Command.set_power_mode); [reflexivity|].
  destruct (u8 (hd 0 (endStatus w)) =? 0); reflexivity.
Qed.

Section Begin.

Variable kCrcInit : Z.
Variable featureSet_getProductType : Z -> Z.
Variable featureSet_getProductVersion : Z -> Z.
Variable ProductType_SGPC3 : Z.

(** A command that requires a feature level is refused, bus untouched, by
    every guarded entry point once the stored level is 0. *)
Lemma gated_at_level_0 (fuel : nat) (c : Command_t) (o : cSGPC3) (w : World) :
  m_featureSet o = 0 -> 0 < getFeatureSet c ->
  isSupported o c = NotSupported /\
  sendSynchronous fuel c (o, w) = Some (NotSupported, (o, w)) /\
  (forall param,
     sendSynchronous_param kCrcInit fuel c param (o, w) = Some (NotSupported, (o, w))) /\
  (forall response,
     sendAndGetSynchronous kCrcInit fuel c response (o, w)
     = Some ((NotSupported, response), (o, w))) /\
  (forall response1 response2,
     sendAndGetSynchronous2 kCrcInit fuel c response1 response2 (o, w)
     = Some ((NotSupported, (response1, response2)), (o, w))) /\
  (forall response,
     sendAndGetSynchronous64 kCrcInit fuel c response (o, w)
     = Some ((NotSupported, response), (o, w))).
Proof.
  intros H0 Hc.
  assert (Hgate : isSupported o c = NotSupported).
  { unfold isSupported. rewrite H0.
    destruct (Z.ltb_spec 0 (getFeatureSet c)); [reflexivity | lia]. }
  split; [exact Hgate|].
  unfold sendSynchronous, sendSynchronous_param, sendAndGetSynchronous,
    sendAndGetSynchronous2, sendAndGetSynchronous64, bind, this; cbn [fst snd].
  rewrite Hgate; cbn [isSuccess negb].
  destruct o; repeat split.
Qed.

(** Past the version check, the result of [begin] is the result of
    [tvoc_init_continuous]; the one [set_power_mode_synchronous] returned
    is assigned to [result] and overwritten unread. *)
Lemma begin_returns_last_result (fuel : nat) (mode : PowerMode_t) (st st2 st3 : St)
    (featureSet : Z) (o1 : cSGPC3) (w1 : World) (e1 e2 : Error_t) :
  (when <- millis ;;
   handleChipReset when ;;
   garbage <- uninitialised 1 ;;
   sendAndGetSynchronous kCrcInit fuel Command.get_feature_set_version
     (u16 (hd 0 garbage))) st
  = Some ((Success, featureSet), (o1, w1)) ->
  featureSet_getProductType featureSet = ProductType_SGPC3 ->
  6 <= u8 (featureSet_getProductVersion featureSet) ->
  set_power_mode_synchronous kCrcInit fuel mode
    (mkSGPC3 (m_powerMode o1) (m_tAvail o1) (u8 (featureSet_getProductVersion featureSet)), w1)
  = Some (e1, st2) ->
  tvoc_init_continuous fuel st2 = Some (e2, st3) ->
  begin kCrcInit featureSet_getProductType featureSet_getProductVersion
        ProductType_SGPC3 fuel mode st
  = Some (e2, st3).
Proof.
  intros Hdisc Htype Hver Hmode Hinit. destruct st as [o w].
  unfold begin.
  unfold bind at 1 2 3 in Hdisc; run_in Hdisc.
  unfold bind at 1 2 3 4; run.
  rewrite Hdisc.
  unfold bind at 1; run.
  rewrite Htype, Z.eqb_refl; cbn [negb].
  destruct (Z.ltb_spec (u8 (featureSet_getProductVersion featureSet)) 6); [lia|].
  cbn [fst snd m_powerMode m_tAvail].
  unfold bind at 1. rewrite Hmode.
  unfold bind at 1. rewrite Hinit. reflexivity.
Qed.

End Begin.

(** C6: when the feature-discovery command of [begin] succeeds and the
    decoded product type is not the SGPC3's, or the decoded version is
    below 6, [begin] returns [WrongDeviceType] in the state the discovery
    command left (no further event on the bus, no further clock reading),
    with the stored feature level 0; from there every command that
    requires a feature level is refused with [NotSupported] by each
    guarded entry point, the bus untouched. *)
Theorem begin_rejects_wrong_device
    (kCrcInit : Z) (featureSet_getProductType featureSet_getProductVersion : Z -> Z)
    (ProductType_SGPC3 : Z) (fuel : nat) (mode : PowerMode_t)
    (o : cSGPC3) (w : World) (featureSet : Z) (o1 : cSGPC3) (w1 : World) :
  (when <- millis ;;
   handleChipReset when ;;
   garbage <- uninitialised 1 ;;
   sendAndGetSynchronous kCrcInit fuel Command.get_feature_set_version
     (u16 (hd 0 garbage))) (o, w)
  = Some ((Success, featureSet), (o1, w1)) ->
  featureSet_getProductType featureSet <> ProductType_SGPC3
  \/ u8 (featureSet_getProductVersion featureSet) < 6 ->
  let o' := mkSGPC3 (m_powerMode o1) (m_tAvail o1) 0 in
  begin kCrcInit featureSet_getProductType featureSet_getProductVersion
        ProductType_SGPC3 fuel mode (o, w)
  = Some (WrongDeviceType, (o', w1)) /\
  m_featureSet o' = 0 /\
  forall c, 0 < getFeatureSet c ->
    isSupported o' c = NotSupported /\
    sendSynchronous fuel c (o', w1) = Some (NotSupported, (o', w1)) /\
    (forall param,
       sendSynchronous_param kCrcInit fuel c param (o', w1)
       = Some (NotSupported, (o', w1))) /\
    (forall response,
       sendAndGetSynchronous kCrcInit fuel c response (o', w1)
       = Some ((NotSupported, response), (o', w1))).
Proof.
  intros Hdisc Hbad o'.
  split; [|split; [reflexivity|]].
  - unfold begin.
    unfold bind at 1 2 3 in Hdisc; run_in Hdisc.
    unfold bind at 1 2 3 4; run.
    rewrite Hdisc.
    unfold bind at 1; run.
    destruct Hbad as [Htype|Hver].
    + destruct (Z.eqb_spec (featureSet_getProductType featureSet) ProductType_SGPC3);
        [contradiction | reflexivity].
    + destruct (featureSet_getProductType featureSet =? ProductType_SGPC3);
        cbn [negb]; [|reflexivity].
      destruct (Z.ltb_spec (u8 (featureSet_getProductVersion featureSet)) 6);
        [reflexivity | lia].
  - intros c Hc.
    destruct (gated_at_level_0 kCrcInit fuel c o' w1 eq_refl Hc)
      as (Hgate & H0 & H1 & H2 & _).
    repeat split; assumption.
Qed.

Lemma begin_rejects_old_firmware :
  begin sensirion_crc_init sensirion_getProductType sensirion_getProductVersion
        sensirion_SGPC3 10 UltraLow old_firmware
  = Some (WrongDeviceType, (mkSGPC3 Low 1012 0, old_firmware_after)) /\
  isSupported (mkSGPC3 Low 1012 0) Command.set_power_mode = NotSupported.
Proof.
  destruct (begin_rejects_wrong_device sensirion_crc_init sensirion_getProductType
              sensirion_getProductVersion sensirion_SGPC3 10 UltraLow
              (fst old_firmware) (snd old_firmware)
              0x1003 (mkSGPC3 Low 1012 9) old_firmware_after)
    as (Hrun & _ & Hgate).
  - vm_compute. reflexivity.
  - right. vm_compute. reflexivity.
  - split; [exact Hrun|].
    apply Hgate. vm_compute. reflexivity.
Defined.

(** C5, at a failing input: the device accepts the discovery command,
    answers the power-mode command with a NACK and accepts the
    continuous-mode command.  [set_power_mode_synchronous] returns
    [WriteError] there, and [begin] returns [Success], the stored power
    mode still [Low] although [UltraLow] was asked for. *)
Theorem begin_hides_power_mode_failure :
  exists w',
    begin sensirion_crc_init sensirion_getProductType sensirion_getProductVersion
          sensirion_SGPC3 10 UltraLow power_mode_nack
    = Some (Success, (mkSGPC3 Low 1034 6, w')) /\
    trace w' = [ EvDelay 10;
                 EvTransmit 0x58 [0x20; 0xAE] 0;
                 EvTransmit 0x58 [0x20; 0x9F; 0x00; 0x00; 0x81] 2;
                 EvRequest 0x58 3 3;
                 EvDelay 10;
                 EvTransmit 0x58 [0x20; 0x2F] 0 ].
Proof.
  eexists. vm_compute. split; reflexivity.
Qed.

(** * Further properties of the driver *)

(** ** Version numbers *)

Section Version.

(** A value below [2 ^ s] fills the low bits left free by a multiple of
    [2 ^ s]: their bitwise OR is their sum. *)
Lemma lor_low_bits (a b s : Z) :
  0 <= s -> 0 <= b < 2 ^ s -> Z.lor (a * 2 ^ s) b = a * 2 ^ s + b.
Proof.
  intros Hs Hb. apply Z.or_to_plus.
  rewrite <- Z.shiftl_mul_pow2 by exact Hs.
  rewrite <- (Z.mod_small b (2 ^ s)) by exact Hb.
  apply Z.bits_inj'. intros n Hn.
  rewrite Z.land_spec, Z.bits_0.
  destruct (Z.lt_ge_cases n s) as [Hlow|Hhigh].
  - rewrite Z.shiftl_spec_low by exact Hlow. reflexivity.
  - rewrite Z.mod_pow2_bits_high by lia. apply andb_false_r.
Qed.

Lemma makeVersion_sum (major minor patch local : Z) :
  is_u8 major -> is_u8 minor -> is_u8 patch -> is_u8 local ->
  makeVersion major minor patch local
  = major * 2 ^ 24 + minor * 2 ^ 16 + patch * 2 ^ 8 + local.
Proof.
  unfold is_u8, makeVersion, u32. intros Ha Hb Hc Hd.
  rewrite !Z.shiftl_mul_pow2 by lia.
  rewrite !(Z.mod_small major), !(Z.mod_small minor), !(Z.mod_small patch),
    !(Z.mod_small local) by lia.
  rewrite !Z.mod_small by lia.
  rewrite (lor_low_bits major (minor * 2 ^ 16) 24) by lia.
  replace (major * 2 ^ 24 + minor * 2 ^ 16)
    with ((major * 2 ^ 8 + minor) * 2 ^ 16) by lia.
  rewrite (lor_low_bits _ (patch * 2 ^ 8) 16) by lia.
  replace ((major * 2 ^ 8 + minor) * 2 ^ 16 + patch * 2 ^ 8)
    with ((major * 2 ^ 16 + minor * 2 ^ 8 + patch) * 2 ^ 8) by lia.
  rewrite (lor_low_bits _ local 8) by lia.
  lia.
Qed.

End Version.

(** X1: for byte-sized fields, the four extractors undo [makeVersion]. *)
Theorem version_round_trip (major minor patch local : Z) :
  is_u8 major -> is_u8 minor -> is_u8 patch -> is_u8 local ->
  let v := makeVersion major minor patch local in
  getMajor v = major /\ getMinor v = minor /\ getPatch v = patch /\ getLocal v = local.
Proof.
  intros Ha Hb Hc Hd v. subst v.
  rewrite makeVersion_sum by assumption.
  unfold is_u8, getMajor, getMinor, getPatch, getLocal, u8 in *.
  rewrite !Z.shiftr_div_pow2 by lia.
  change (2 ^ 24) with 16777216. change (2 ^ 16) with 65536.
  change (2 ^ 8) with 256 in *.
  repeat split; Z.div_mod_to_equations; lia.
Qed.

Lemma version_round_trip_kVersion :
  getMajor kVersion = 0 /\ getMinor kVersion = 1 /\
  getPatch kVersion = 0 /\ getLocal kVersion = 0.
Proof.
  apply (version_round_trip 0 1 0 0); unfold is_u8; lia.
Defined.

(** Conversely every 32-bit value is the version made of its four fields. *)
Theorem version_of_fields (v : Z) :
  0 <= v < 2 ^ 32 ->
  makeVersion (getMajor v) (getMinor v) (getPatch v) (getLocal v) = v.
Proof.
  intros Hv.
  rewrite makeVersion_sum by apply u8_range.
  unfold getMajor, getMinor, getPatch, getLocal, u8.
  rewrite !Z.shiftr_div_pow2 by lia.
  change (2 ^ 32) with 4294967296 in *.
  change (2 ^ 24) with 16777216. change (2 ^ 16) with 65536.
  change (2 ^ 8) with 256.
  Z.div_mod_to_equations. lia.
Qed.

Lemma version_of_fields_kVersion :
  makeVersion (getMajor kVersion) (getMinor kVersion) (getPatch kVersion)
              (getLocal kVersion) = kVersion.
Proof.
  apply (version_of_fields kVersion). vm_compute. split; [discriminate | reflexivity].
Defined.

(** Versions compare as their fields do, major first: the order
    [static_assert(kVersion >= makeVersion(...))] relies on. *)
Theorem version_order (a b c d a' b' c' d' : Z) :
  is_u8 a -> is_u8 b -> is_u8 c -> is_u8 d ->
  is_u8 a' -> is_u8 b' -> is_u8 c' -> is_u8 d' ->
  (makeVersion a b c d < makeVersion a' b' c' d'
   <-> a < a' \/ (a = a' /\ (b < b' \/ (b = b' /\ (c < c' \/ (c = c' /\ d < d')))))).
Proof.
  intros Ha Hb Hc Hd Ha' Hb' Hc' Hd'.
  rewrite !makeVersion_sum by assumption.
  unfold is_u8 in *.
  change (2 ^ 24) with 16777216. change (2 ^ 16) with 65536.
  change (2 ^ 8) with 256 in *.
  lia.
Qed.

Lemma version_order_kVersion :
  makeVersion 0 0 9 9 < kVersion
  <-> 0 < 0 \/ (0 = 0 /\ (0 < 1 \/ (0 = 1 /\ (9 < 0 \/ (9 = 0 /\ 9 < 0))))).
Proof.
  apply (version_order 0 0 9 9 0 1 0 0); unfold is_u8; lia.
Defined.

(** ** Descriptors beyond the legal ranges *)

(** What the accessors return for constructor arguments of the parameter
    types ([uint16_t] opcode, [uint8_t] for the rest) beyond the legal
    ranges: each field is cut to its width, and the lengths are divided by
    three first.  A 6-byte parameter is therefore recorded as no parameter,
    and an opcode of 0x4000 or more loses its two upper bits. *)
Theorem CommandInit_truncates (code paramLen responseLen delayMs featureSet : Z) :
  0 <= code < 2 ^ 16 ->
  is_u8 paramLen -> is_u8 responseLen -> is_u8 delayMs -> is_u8 featureSet ->
  let c := CommandInit code paramLen responseLen delayMs featureSet in
  getCommand c = code mod 2 ^ 14 /\
  getParameterLength c = (paramLen / 3) mod 2 /\
  getResponseLength c = (responseLen / 3) mod 8 /\
  getFeatureSet c = featureSet mod 16 /\
  getDelayMs c = delayMs /\
  (paramLen = 6 -> getParameterLength c = 0) /\
  (2 ^ 14 <= code -> getCommand c < code).
Proof.
  intros Hcode Hp Hr Hd Hf c. subst c. unfold is_u8 in *.
  rewrite getCommand_CommandInit, getParameterLength_CommandInit,
    getResponseLength_CommandInit, getFeatureSet_CommandInit,
    getDelayMs_CommandInit.
  repeat split.
  - apply Z.mod_small. lia.
  - intros ->. reflexivity.
  - intros Hbig. change (2 ^ 14) with 16384 in *. change (2 ^ 16) with 65536 in *.
    Z.div_mod_to_equations. lia.
Qed.

Lemma CommandInit_truncates_out_of_range :
  let c := CommandInit 0x6008 6 24 255 22 in
  getCommand c = 0x6008 mod 2 ^ 14 /\
  getParameterLength c = (6 / 3) mod 2 /\
  getResponseLength c = (24 / 3) mod 8 /\
  getFeatureSet c = 22 mod 16 /\
  getDelayMs c = 255 /\
  (6 = 6 -> getParameterLength c = 0) /\
  (2 ^ 14 <= 0x6008 -> getCommand c < 0x6008).
Proof.
  apply (CommandInit_truncates 0x6008 6 24 255 22); unfold is_u8; lia.
Defined.

Section Accessors.

(** Reading a field of [k] bits at bit [s] of a 32-bit word. *)
Lemma field_get (x s k : Z) :
  0 <= s -> 0 <= k -> s + k <= 32 ->
  Z.shiftr (Z.land (u32 x) (Z.shiftl (Z.ones k) s)) s = Z.shiftr x s mod 2 ^ k.
Proof. intros Hs Hk Hsk. unfold u32. Z.bitblast. Qed.

Lemma mod_pow2_u8 (x k : Z) : 0 <= k <= 8 -> u8 (x mod 2 ^ k) = x mod 2 ^ k.
Proof.
  intros Hk. unfold u8. apply Z.mod_small.
  pose proof (Z.mod_pos_bound x (2 ^ k) ltac:(lia)).
  pose proof (Z.pow_le_mono_r 2 k 8 ltac:(lia) ltac:(lia)). lia.
Qed.

End Accessors.

Lemma accessor_ranges (c : Command_t) :
  0 <= getCommand c < 2 ^ 14 /\
  0 <= getParameterLength c <= 1 /\
  0 <= getResponseLength c <= 7 /\
  0 <= getFeatureSet c <= 15 /\
  0 <= getDelayMs c <= 255.
Proof.
  unfold getCommand, getParameterLength, getResponseLength, getFeatureSet, getDelayMs.
  destruct masks_as_fields as (-> & -> & -> & -> & ->).
  rewrite !field_get by lia.
  rewrite !mod_pow2_u8 by lia.
  assert (Hcmd : u16 (Z.land (u16 c) (Z.ones 14)) = c mod 2 ^ 14).
  { unfold u16. Z.bitblast. }
  assert (Hdelay : u32 (Z.shiftr c 24 mod 2 ^ 8) = Z.shiftr c 24 mod 2 ^ 8).
  { unfold u32. apply Z.mod_small.
    pose proof (Z.mod_pos_bound (Z.shiftr c 24) (2 ^ 8) ltac:(lia)). lia. }
  rewrite Hcmd, Hdelay.
  pose proof (Z.mod_pos_bound c (2 ^ 14) ltac:(lia)).
  pose proof (Z.mod_pos_bound (Z.shiftr c 16) (2 ^ 1) ltac:(lia)).
  pose proof (Z.mod_pos_bound (Z.shiftr c 17) (2 ^ 3) ltac:(lia)).
  pose proof (Z.mod_pos_bound (Z.shiftr c 20) (2 ^ 4) ltac:(lia)).
  pose proof (Z.mod_pos_bound (Z.shiftr c 24) (2 ^ 8) ltac:(lia)).
  lia.
Qed.

(** Whatever 32-bit pattern a [Command_t] holds, the accessors stay within
    their fields: 14 bits of opcode, at most one parameter word, at most
    seven response words, a feature level below 16 and a delay below 256. *)
Theorem accessors_bounded (c : Command_t) :
  0 <= getCommand c < 2 ^ 14 /\
  0 <= getParameterLength c <= 1 /\
  0 <= getResponseLength c <= 7 /\
  0 <= getFeatureSet c <= 15 /\
  0 <= getDelayMs c <= 255.
Proof. exact (accessor_ranges c). Qed.

(** The table of commands as the accessors read it: opcode, parameter
    words, response words, feature level, delay.  The opcodes are distinct
    and none is cut by the 14-bit field; no command both takes a parameter
    and returns a response. *)
Theorem command_table_shapes :
  map (fun c => (getCommand c, getParameterLength c, getResponseLength c,
                 getFeatureSet c, getDelayMs c)) command_table
  = [ (0x2008, 0, 1, 0, 50); (0x2015, 0, 1, 0, 10); (0x201e, 1, 0, 0, 10);
      (0x202f, 0, 1, 0, 10); (0x2032, 0, 1, 0, 220); (0x2046, 0, 2, 0, 50);
      (0x204d, 0, 1, 0, 50); (0x2061, 1, 0, 6, 10); (0x209f, 1, 0, 6, 10);
      (0x20ae, 0, 0, 0, 10); (0x20b3, 0, 1, 5, 10); (0x3682, 0, 3, 0, 1) ] /\
  NoDup (map getCommand command_table) /\
  (forall c, In c command_table ->
     getParameterLength c = 0 \/ getResponseLength c = 0).
Proof.
  split; [reflexivity|]. split.
  - vm_compute. repeat constructor; cbn; intuition discriminate.
  - intros c Hin. cbn in Hin.
    repeat (destruct Hin as [<-|Hin]; [vm_compute; auto|]). contradiction.
Qed.

(** ** The bus traffic of one transaction *)

Section Traffic.

Lemma writeParams_run (n : nat) (p : list Z) (o : cSGPC3) (w : World) :
  writeParams n p (o, w)
  = Some (tt, (o, mkWorld (clock w) (endStatus w) (device w) (indeterminate w)
                          (txAddress w) (txBuffer w ++ param_bytes n p)
                          (rxBuffer w) (trace w))).
Proof.
  revert p w. induction n as [|n IH]; intros p w; cbn [writeParams param_bytes].
  - rewrite app_nil_r. destruct w; reflexivity.
  - unfold bind at 1 2 3; cbn [write world fst snd].
    rewrite IH; cbn [clock endStatus device indeterminate txAddress txBuffer rxBuffer trace].
    rewrite <- !app_assoc. reflexivity.
Qed.

(** The whole effect of [sendCommand] on the world. *)
Lemma sendCommand_run (fuel : nat) (c : Command_t)
    (pParamBytes pResultBytes : option (list Z)) (o : cSGPC3) (w : World) :
  exists w',
    sendCommand fuel c pParamBytes pResultBytes (o, w)
    = Some (transfer_result c w,
            (mkSGPC3 (m_powerMode o)
                     (u32 (u32 (hd 0 (clock w)) + getDelayMs c + 1))
                     (m_featureSet o), w')) /\
    trace w' = transfer_events c pParamBytes w ++ trace w /\
    clock w' = tl (clock w) /\
    endStatus w' = tl (endStatus w) /\
    indeterminate w' = indeterminate w /\
    device w' = (if (u8 (hd 0 (endStatus w)) =? 0) && negb (getResponseLength c =? 0)
                 then tl (device w) else device w).
Proof.
  unfold sendCommand, transfer_result, transfer_events.
  unfold bind at 1; run.
  unfold bind at 1. rewrite busWait_returns_at_once.
  unfold bind at 1 2 3; run.
  match goal with
  | |- context [bind ?m _ (o, ?w1)] =>
      assert (Hp : m (o, w1)
        = Some (tt, (o, mkWorld (clock w1) (endStatus w1) (device w1) (indeterminate w1)
                            (txAddress w1)
                            (txBuffer w1 ++ match pParamBytes with
                                            | Some p => param_bytes (Z.to_nat (getParameterLength c)) p
                                            | None => []
                                            end)
                            (rxBuffer w1) (trace w1))))
  end.
  { destruct pParamBytes as [p|].
    - apply writeParams_run.
    - unfold ret. run. rewrite ?app_nil_r. reflexivity. }
  run_in Hp.
  unfold bind at 1. rewrite Hp.
  unfold bind at 1 2; run.
  destruct (Z.eqb_spec (u8 (hd 0 (endStatus w))) 0) as [Hst|Hst]; cbn [negb andb].
  - unfold bind at 1; run.
    destruct (Z.eqb_spec (getResponseLength c) 0) as [Hn|Hn]; cbn [negb].
    + eexists. split; [reflexivity|]. run. repeat split.
    + unfold bind at 1; run.
      match goal with |- context [negb ?b] => destruct b end; cbn [negb];
        (eexists; split; [reflexivity|]; run; repeat split).
  - eexists. split; [reflexivity|]. run. repeat split.
Qed.

End Traffic.

(** [sendCommand] touches neither the power mode nor the feature level, and
    takes nothing from the stack. *)
Theorem sendCommand_keeps_mode_and_level (fuel : nat) (c : Command_t)
    (pParamBytes pResultBytes : option (list Z)) (o : cSGPC3) (w : World) :
  exists e o' w',
    sendCommand fuel c pParamBytes pResultBytes (o, w) = Some (e, (o', w')) /\
    m_powerMode o' = m_powerMode o /\
    m_featureSet o' = m_featureSet o /\
    indeterminate w' = indeterminate w.
Proof.
  destruct (sendCommand_run fuel c pParamBytes pResultBytes o w)
    as (w' & Hrun & _ & _ & _ & Hind & _).
  eexists; eexists; exists w'. split; [exact Hrun|]. repeat split. exact Hind.
Qed.

(** When the write is not acknowledged, the transmission is the only event
    on the bus: no delay, no read request, and the result is [WriteError]. *)
Theorem sendCommand_write_error_stops (fuel : nat) (c : Command_t)
    (pParamBytes pResultBytes : option (list Z)) (o : cSGPC3) (w : World) :
  u8 (hd 0 (endStatus w)) <> 0 ->
  exists o' w' sent,
    sendCommand fuel c pParamBytes pResultBytes (o, w) = Some (WriteError, (o', w')) /\
    trace w' = EvTransmit kAddress sent (u8 (hd 0 (endStatus w))) :: trace w /\
    device w' = device w.
Proof.
  intros Hst.
  destruct (sendCommand_run fuel c pParamBytes pResultBytes o w)
    as (w' & Hrun & Htrace & _ & _ & _ & Hdev).
  unfold transfer_result in Hrun. unfold transfer_events in Htrace.
  destruct (Z.eqb_spec (u8 (hd 0 (endStatus w))) 0) as [|_]; [contradiction|].
  cbn [negb andb] in *.
  eexists; exists w'; eexists. split; [exact Hrun|]. split; [exact Htrace | exact Hdev].
Qed.

Lemma sendCommand_write_error_stops_nack :
  exists o' w' sent,
    sendCommand 0 Command.measure_tvoc None None
      (mkSGPC3 Low 0 0, with_endStatus [2] idle_bus)
    = Some (WriteError, (o', w')) /\
    trace w' = EvTransmit kAddress sent (u8 (hd 0 (endStatus (with_endStatus [2] idle_bus))))
               :: trace (with_endStatus [2] idle_bus) /\
    device w' = device (with_endStatus [2] idle_bus).
Proof.
  apply (sendCommand_write_error_stops 0 Command.measure_tvoc None None
           (mkSGPC3 Low 0 0) (with_endStatus [2] idle_bus)).
  vm_compute. discriminate.
Defined.

(** A command without response, once acknowledged, is followed by its delay
    and nothing else: the result is [Success] and no read is requested. *)
Theorem sendCommand_without_response (fuel : nat) (c : Command_t)
    (pParamBytes pResultBytes : option (list Z)) (o : cSGPC3) (w : World) :
  u8 (hd 0 (endStatus w)) = 0 -> getResponseLength c = 0 ->
  exists o' w' sent,
    sendCommand fuel c pParamBytes pResultBytes (o, w) = Some (Success, (o', w')) /\
    trace w' = EvDelay (getDelayMs c) :: EvTransmit kAddress sent 0 :: trace w /\
    device w' = device w.
Proof.
  intros Hst Hn.
  destruct (sendCommand_run fuel c pParamBytes pResultBytes o w)
    as (w' & Hrun & Htrace & _ & _ & _ & Hdev).
  unfold transfer_result in Hrun. unfold transfer_events in Htrace.
  rewrite Hst, Hn in *. cbn [Z.eqb negb andb] in *.
  eexists; exists w'; eexists. split; [exact Hrun|]. split; [exact Htrace | exact Hdev].
Qed.

Lemma sendCommand_without_response_init :
  exists o' w' sent,
    sendCommand 0 Command.tvoc_init_continuous None None
      (mkSGPC3 Low 0 0, with_endStatus [0] idle_bus)
    = Some (Success, (o', w')) /\
    trace w' = EvDelay (getDelayMs Command.tvoc_init_continuous)
               :: EvTransmit kAddress sent 0 :: trace (with_endStatus [0] idle_bus) /\
    device w' = device (with_endStatus [0] idle_bus).
Proof.
  apply (sendCommand_without_response 0 Command.tvoc_init_continuous None None
           (mkSGPC3 Low 0 0) (with_endStatus [0] idle_bus)); reflexivity.
Defined.

(** A command with response, once acknowledged, requests three bytes per
    response word from address 0x58 after its delay; the result is
    [ReadError] exactly when the device supplies fewer bytes than that. *)
Theorem sendCommand_with_response (fuel : nat) (c : Command_t)
    (pParamBytes pResultBytes : option (list Z)) (o : cSGPC3) (w : World) :
  u8 (hd 0 (endStatus w)) = 0 -> getResponseLength c <> 0 ->
  let wanted := getResponseLength c * 3 in
  let supplied := Z.of_nat (length (hd [] (device w))) in
  exists o' w' sent,
    sendCommand fuel c pParamBytes pResultBytes (o, w)
    = Some (if supplied <? wanted then ReadError else Success, (o', w')) /\
    trace w' = EvRequest 0x58 wanted (Z.min wanted supplied)
               :: EvDelay (getDelayMs c) :: EvTransmit 0x58 sent 0 :: trace w /\
    device w' = tl (device w).
Proof.
  intros Hst Hn wanted supplied.
  destruct (sendCommand_run fuel c pParamBytes pResultBytes o w)
    as (w' & Hrun & Htrace & _ & _ & _ & Hdev).
  unfold transfer_result in Hrun. unfold transfer_events in Htrace.
  rewrite Hst in *. cbn [Z.eqb negb andb] in *.
  destruct (Z.eqb_spec (getResponseLength c) 0) as [|_]; [contradiction|].
  cbn [negb] in *.
  pose proof (accessor_ranges c) as (_ & _ & Hr & _).
  assert (Hgot : u8 (Z.of_nat (length (firstn (Z.to_nat (getResponseLength c * 3))
                                              (hd [] (device w)))))
                 = Z.min wanted supplied).
  { rewrite length_firstn. unfold u8, wanted, supplied.
    rewrite Z.mod_small by lia. lia. }
  rewrite Hgot in *.
  eexists; exists w'; eexists. split; [|split; [exact Htrace | exact Hdev]].
  rewrite Hrun. f_equal. f_equal.
  fold wanted.
  destruct (Z.ltb_spec supplied wanted), (Z.eqb_spec (Z.min wanted supplied) wanted);
    cbn [negb]; try reflexivity; lia.
Qed.

Lemma sendCommand_with_response_short :
  exists o' w' sent,
    sendCommand 0 Command.get_serial_id None None
      (mkSGPC3 Low 0 0, with_device [[1; 2; 3; 4]] (with_endStatus [0] idle_bus))
    = Some (ReadError, (o', w')) /\
    trace w' = [EvRequest 0x58 9 4; EvDelay 1; EvTransmit 0x58 sent 0] /\
    device w' = [].
Proof.
  apply (sendCommand_with_response 0 Command.get_serial_id None None (mkSGPC3 Low 0 0)
           (with_device [[1; 2; 3; 4]] (with_endStatus [0] idle_bus)));
    [reflexivity | vm_compute; discriminate].
Defined.

Section Opcode.

Lemma opcode_bytes (c : Command_t) :
  let hi := u8 (Z.shiftr (getCommand c) 8) in
  let lo := u8 (getCommand c) in
  hi * 256 + lo = getCommand c /\ 0 <= hi < 64 /\ 0 <= lo < 256.
Proof.
  intros hi lo. subst hi lo.
  pose proof (accessor_ranges c) as (Hc & _).
  unfold u8. rewrite Z.shiftr_div_pow2 by lia.
  change (2 ^ 14) with 16384 in Hc. change (2 ^ 8) with 256.
  Z.div_mod_to_equations. lia.
Qed.

Lemma param_bytes_words (c : Command_t) (p : list Z) :
  param_bytes (Z.to_nat (getParameterLength c)) p
  = if getParameterLength c =? 0 then []
    else [hd 0 p; hd 0 (tl p); hd 0 (tl (tl p))].
Proof.
  pose proof (accessor_ranges c) as (_ & Hp & _).
  assert (Hcases : getParameterLength c = 0 \/ getParameterLength c = 1) by lia.
  destruct Hcases as [-> | ->]; reflexivity.
Qed.

End Opcode.

(** What [sendCommand] puts on the bus, for every descriptor: one
    transmission to address 0x58 made of the opcode, high byte first, and
    then, if a parameter buffer is given and the descriptor has a parameter
    word, the first three bytes of that buffer and nothing more. *)
Theorem sendCommand_transmits_opcode (fuel : nat) (c : Command_t)
    (pParamBytes pResultBytes : option (list Z)) (o : cSGPC3) (w : World) :
  exists e st' events hi lo,
    sendCommand fuel c pParamBytes pResultBytes (o, w) = Some (e, st') /\
    trace (snd st')
    = events
      ++ EvTransmit 0x58
           (hi :: lo ::
            match pParamBytes with
            | None => []
            | Some p => if getParameterLength c =? 0 then []
                        else [hd 0 p; hd 0 (tl p); hd 0 (tl (tl p))]
            end)
           (u8 (hd 0 (endStatus w)))
      :: trace w /\
    hi * 256 + lo = getCommand c /\ 0 <= hi < 64 /\ 0 <= lo < 256 /\
    (forall address bytes status, ~ In (EvTransmit address bytes status) events).
Proof.
  destruct (sendCommand_run fuel c pParamBytes pResultBytes o w)
    as (w' & Hrun & Htrace & _).
  destruct (opcode_bytes c) as (Hsum & Hhi & Hlo).
  eexists; eexists; eexists; eexists; eexists.
  split; [exact Hrun|]. cbn [snd].
  split; [|split; [exact Hsum|split; [exact Hhi|split; [exact Hlo|]]]].
  - rewrite Htrace. unfold transfer_events.
    assert (Hparams :
      match pParamBytes with
      | Some p => param_bytes (Z.to_nat (getParameterLength c)) p
      | None => []
      end
      = match pParamBytes with
        | None => []
        | Some p => if getParameterLength c =? 0 then []
                    else [hd 0 p; hd 0 (tl p); hd 0 (tl (tl p))]
        end).
    { destruct pParamBytes as [p|]; [apply param_bytes_words | reflexivity]. }
    rewrite Hparams. cbn [app].
    instantiate (1 := if negb (u8 (hd 0 (endStatus w)) =? 0) then []
                      else if getResponseLength c =? 0 then [EvDelay (getDelayMs c)]
                      else [EvRequest kAddress (getResponseLength c * 3)
                              (u8 (Z.of_nat (length (firstn (Z.to_nat (getResponseLength c * 3))
                                                            (hd [] (device w))))));
                            EvDelay (getDelayMs c)]).
    destruct (negb (u8 (hd 0 (endStatus w)) =? 0)); [reflexivity|].
    destruct (getResponseLength c =? 0); reflexivity.
  - intros address bytes status.
    destruct (negb (u8 (hd 0 (endStatus w)) =? 0)); [intros []|].
    destruct (getResponseLength c =? 0); cbn; intuition discriminate.
Qed.

(** ** The response wrappers *)

Section Wrappers.

Variable kCrcInit : Z.

Lemma sendCommandWithParam_run (fuel : nat) (c : Command_t) (param : Z)
    (o : cSGPC3) (w : World) :
  exists w' paramBuf,
    sendCommandWithParam kCrcInit fuel c param (o, w)
    = Some (transfer_result c w, (after_transfer c o w, w')) /\
    trace w'
    = transfer_events c
        (Some [hd 0 (putbe16 paramBuf param); hd 0 (tl (putbe16 paramBuf param));
               crc (putbe16 paramBuf param) 2 kCrcInit]) w
      ++ trace w.
Proof.
  unfold sendCommandWithParam.
  unfold bind at 1. rewrite uninitialised_run.
  match goal with |- context [sendCommand fuel c ?p ?r (o, ?w1)] =>
    destruct (sendCommand_run fuel c p r o w1) as (w' & Hrun & Htrace & _)
  end.
  exists w', (map u8 (firstn 3 (indeterminate w ++ repeat 0 3))).
  split; [rewrite Hrun; reflexivity|].
  exact Htrace.
Qed.

Lemma transfer_result_cases (c : Command_t) (w : World) :
  transfer_result c w = Success \/ transfer_result c w = WriteError
  \/ transfer_result c w = ReadError.
Proof.
  unfold transfer_result.
  destruct (negb (u8 (hd 0 (endStatus w)) =? 0)); [auto|].
  destruct (getResponseLength c =? 0); [auto|].
  match goal with |- context [negb ?b] => destruct (negb b) end; auto.
Qed.

End Wrappers.

(** For a command with one parameter word and a 16-bit [param],
    [sendCommandWithParam] makes one transmission to address 0x58: the two
    opcode bytes, high byte first, then the high and the low byte of
    [param], then the CRC of exactly those two bytes computed from the
    default initial value.  Nothing of the uninitialised buffer reaches the
    bus; the result is [WriteError] if the write is not acknowledged and,
    for a command without response, [Success] otherwise. *)
Theorem sendCommandWithParam_appends_crc (kCrcInit : Z) (fuel : nat) (c : Command_t)
    (param : Z) (o : cSGPC3) (w : World) :
  getParameterLength c = 1 -> 0 <= param < 2 ^ 16 ->
  let status := u8 (hd 0 (endStatus w)) in
  let hi := getCommand c / 256 in
  let lo := getCommand c mod 256 in
  let p0 := param / 256 in
  let p1 := param mod 256 in
  exists e st' events,
    sendCommandWithParam kCrcInit fuel c param (o, w) = Some (e, st') /\
    trace (snd st')
    = events ++ EvTransmit 0x58 [hi; lo; p0; p1; crc [p0; p1] 2 kCrcInit] status
      :: trace w /\
    (forall address bytes st, ~ In (EvTransmit address bytes st) events) /\
    (status <> 0 -> e = WriteError /\ events = []) /\
    (status = 0 -> getResponseLength c = 0 ->
     e = Success /\ events = [EvDelay (getDelayMs c)]) /\
    0 <= hi < 64 /\ 0 <= lo < 256 /\ 0 <= p0 < 256 /\ 0 <= p1 < 256.
Proof.
  intros Hlen Hparam status hi lo p0 p1.
  destruct (sendCommandWithParam_run kCrcInit fuel c param o w)
    as (w' & paramBuf & Hrun & Htrace).
  pose proof (accessor_ranges c) as (Hcmd & _).
  assert (Hhi : u8 (Z.shiftr (getCommand c) 8) = hi).
  { unfold u8, hi. rewrite Z.shiftr_div_pow2 by lia.
    change (2 ^ 14) with 16384 in Hcmd. change (2 ^ 8) with 256.
    apply Z.mod_small. Z.div_mod_to_equations. lia. }
  assert (Hp0 : u8 (Z.shiftr param 8) = p0).
  { unfold u8, p0. rewrite Z.shiftr_div_pow2 by lia.
    change (2 ^ 16) with 65536 in Hparam. change (2 ^ 8) with 256.
    apply Z.mod_small. Z.div_mod_to_equations. lia. }
  assert (Hbounds : 0 <= hi < 64 /\ 0 <= lo < 256 /\ 0 <= p0 < 256 /\ 0 <= p1 < 256).
  { unfold hi, lo, p0, p1.
    change (2 ^ 14) with 16384 in Hcmd. change (2 ^ 16) with 65536 in Hparam.
    repeat split; Z.div_mod_to_equations; lia. }
  exists (transfer_result c w), (after_transfer c o w, w').
  exists (if negb (status =? 0) then []
          else if getResponseLength c =? 0 then [EvDelay (getDelayMs c)]
          else [EvRequest kAddress (getResponseLength c * 3)
                  (u8 (Z.of_nat (length (firstn (Z.to_nat (getResponseLength c * 3))
                                                (hd [] (device w))))));
                EvDelay (getDelayMs c)]).
  split; [exact Hrun|].
  split; [|split; [|split; [|split; [|exact Hbounds]]]].
  - cbn [snd]. rewrite Htrace. unfold transfer_events. rewrite Hlen.
    cbn [Z.to_nat Pos.to_nat Pos.iter_op Nat.add param_bytes hd tl putbe16 crc app].
    rewrite Hhi, Hp0. fold status.
    change (u8 (getCommand c)) with lo. change (u8 param) with p1.
    destruct (negb (status =? 0)); [reflexivity|].
    destruct (getResponseLength c =? 0); reflexivity.
  - intros address bytes st.
    destruct (negb (status =? 0)); [intros []|].
    destruct (getResponseLength c =? 0); cbn; intuition discriminate.
  - intros Hst. unfold transfer_result. fold status.
    destruct (Z.eqb_spec status 0) as [|_]; [contradiction|]. split; reflexivity.
  - intros Hst Hresp. unfold transfer_result. fold status.
    rewrite Hst, Hresp. split; reflexivity.
Qed.

Lemma sendCommandWithParam_appends_crc_power_mode :
  exists e st' events,
    sendCommandWithParam 0xFF 0 Command.set_power_mode 0x0001
      (mkSGPC3 Low 0 6, with_endStatus [0] idle_bus) = Some (e, st') /\
    trace (snd st')
    = events ++ EvTransmit 0x58 [0x20; 0x9F; 0x00; 0x01; crc [0x00; 0x01] 2 0xFF] 0
      :: [] /\
    (forall address bytes st, ~ In (EvTransmit address bytes st) events) /\
    (0 <> 0 -> e = WriteError /\ events = []) /\
    (0 = 0 -> getResponseLength Command.set_power_mode = 0 ->
     e = Success /\ events = [EvDelay (getDelayMs Command.set_power_mode)]) /\
    0 <= 0x20 < 64 /\ 0 <= 0x9F < 256 /\ 0 <= 0x00 < 256 /\ 0 <= 0x01 < 256.
Proof.
  apply (sendCommandWithParam_appends_crc 0xFF 0 Command.set_power_mode 0x0001
           (mkSGPC3 Low 0 6) (with_endStatus [0] idle_bus)).
  - reflexivity.
  - lia.
Defined.

Ltac run_response c o :=
  unfold bind at 1; rewrite uninitialised_run;
  unfold bind at 1;
  match goal with |- context [sendCommand ?fuel c ?p ?r (o, ?w1)] =>
    let w' := fresh "w'" in
    let Hrun := fresh "Hrun" in
    destruct (sendCommand_run fuel c p r o w1) as (w' & Hrun & _);
    rewrite Hrun, transfer_result_with_indeterminate; clear Hrun
  end.

(** The three response wrappers return [Success], [WriteError],
    [ReadError] or [BadCRC], and on every result other than [Success] the
    caller's output variables keep the values they had. *)
Theorem responses_written_only_on_success (kCrcInit : Z) (fuel : nat) (c : Command_t)
    (o : cSGPC3) (w : World) :
  (forall response, exists e r st',
     sendCommandWithResponse kCrcInit fuel c response (o, w) = Some ((e, r), st') /\
     (e <> Success -> r = response) /\
     In e [Success; WriteError; ReadError; BadCRC]) /\
  (forall response1 response2, exists e r st',
     sendCommandWithTwoResponses kCrcInit fuel c response1 response2 (o, w)
     = Some ((e, r), st') /\
     (e <> Success -> r = (response1, response2)) /\
     In e [Success; WriteError; ReadError; BadCRC]) /\
  (forall response, exists e r st',
     sendCommandWithThreeResponses kCrcInit fuel c response (o, w) = Some ((e, r), st') /\
     (e <> Success -> r = response) /\
     In e [Success; WriteError; ReadError; BadCRC]).
Proof.
  split; [|split]; intros.
  - unfold sendCommandWithResponse. run_response c o.
    destruct (transfer_result_cases c w) as [-> | [-> | ->]]; cbn [isSuccess negb].
    + match goal with |- context [negb ?b] => destruct b end; cbn [negb];
        eexists; eexists; eexists; (split; [reflexivity|]); cbn; intuition congruence.
    + eexists; eexists; eexists; (split; [reflexivity|]); cbn; intuition congruence.
    + eexists; eexists; eexists; (split; [reflexivity|]); cbn; intuition congruence.
  - unfold sendCommandWithTwoResponses. run_response c o.
    destruct (transfer_result_cases c w) as [-> | [-> | ->]]; cbn [isSuccess negb].
    + repeat (match goal with |- context [negb ?b] => destruct b end; cbn [negb]);
        eexists; eexists; eexists; (split; [reflexivity|]); cbn; intuition congruence.
    + eexists; eexists; eexists; (split; [reflexivity|]); cbn; intuition congruence.
    + eexists; eexists; eexists; (split; [reflexivity|]); cbn; intuition congruence.
  - unfold sendCommandWithThreeResponses. run_response c o.
    destruct (transfer_result_cases c w) as [-> | [-> | ->]]; cbn [isSuccess negb].
    + repeat (match goal with |- context [negb ?b] => destruct b end; cbn [negb]);
        eexists; eexists; eexists; (split; [reflexivity|]); cbn; intuition congruence.
    + eexists; eexists; eexists; (split; [reflexivity|]); cbn; intuition congruence.
    + eexists; eexists; eexists; (split; [reflexivity|]); cbn; intuition congruence.
Qed.

(** ** The guarded entry points and the session *)

Lemma guarded_refusal (kCrcInit : Z) (fuel : nat) (c : Command_t)
    (o : cSGPC3) (w : World) :
  m_featureSet o < getFeatureSet c ->
  sendSynchronous fuel c (o, w) = Some (NotSupported, (o, w)) /\
  (forall param,
     sendSynchronous_param kCrcInit fuel c param (o, w) = Some (NotSupported, (o, w))) /\
  (forall response,
     sendAndGetSynchronous kCrcInit fuel c response (o, w)
     = Some ((NotSupported, response), (o, w))) /\
  (forall response1 response2,
     sendAndGetSynchronous2 kCrcInit fuel c response1 response2 (o, w)
     = Some ((NotSupported, (response1, response2)), (o, w))) /\
  (forall response,
     sendAndGetSynchronous64 kCrcInit fuel c response (o, w)
     = Some ((NotSupported, response), (o, w))).
Proof.
  intros Hlow.
  assert (Hgate : isSupported o c = NotSupported).
  { unfold isSupported.
    destruct (Z.ltb_spec (m_featureSet o) (getFeatureSet c)); [reflexivity | lia]. }
  unfold sendSynchronous, sendSynchronous_param, sendAndGetSynchronous,
    sendAndGetSynchronous2, sendAndGetSynchronous64, bind, this; cbn [fst snd].
  rewrite Hgate; cbn [isSuccess negb].
  destruct o; repeat split.
Qed.

(** A command whose feature level exceeds the session's is refused by each
    of the five guarded entry points before anything happens: the result
    is [NotSupported], the object and the world are as they were (no clock
    reading, no bus event), and the output variables keep their values. *)
Theorem gate_refuses_before_the_bus (kCrcInit : Z) (fuel : nat) (c : Command_t)
    (o : cSGPC3) (w : World) :
  m_featureSet o < getFeatureSet c ->
  sendSynchronous fuel c (o, w) = Some (NotSupported, (o, w)) /\
  (forall param,
     sendSynchronous_param kCrcInit fuel c param (o, w) = Some (NotSupported, (o, w))) /\
  (forall response,
     sendAndGetSynchronous kCrcInit fuel c response (o, w)
     = Some ((NotSupported, response), (o, w))) /\
  (forall response1 response2,
     sendAndGetSynchronous2 kCrcInit fuel c response1 response2 (o, w)
     = Some ((NotSupported, (response1, response2)), (o, w))) /\
  (forall response,
     sendAndGetSynchronous64 kCrcInit fuel c response (o, w)
     = Some ((NotSupported, response), (o, w))).
Proof. exact (guarded_refusal kCrcInit fuel c o w). Qed.

Lemma gate_refuses_before_the_bus_level_5 :
  sendSynchronous 0 Command.set_power_mode (mkSGPC3 Low 0 5, idle_bus)
  = Some (NotSupported, (mkSGPC3 Low 0 5, idle_bus)) /\
  (forall param,
     sendSynchronous_param 0xFF 0 Command.set_power_mode param (mkSGPC3 Low 0 5, idle_bus)
     = Some (NotSupported, (mkSGPC3 Low 0 5, idle_bus))) /\
  (forall response,
     sendAndGetSynchronous 0xFF 0 Command.set_power_mode response (mkSGPC3 Low 0 5, idle_bus)
     = Some ((NotSupported, response), (mkSGPC3 Low 0 5, idle_bus))) /\
  (forall response1 response2,
     sendAndGetSynchronous2 0xFF 0 Command.set_power_mode response1 response2
       (mkSGPC3 Low 0 5, idle_bus)
     = Some ((NotSupported, (response1, response2)), (mkSGPC3 Low 0 5, idle_bus))) /\
  (forall response,
     sendAndGetSynchronous64 0xFF 0 Command.set_power_mode response
       (mkSGPC3 Low 0 5, idle_bus)
     = Some ((NotSupported, response), (mkSGPC3 Low 0 5, idle_bus))).
Proof.
  apply (gate_refuses_before_the_bus 0xFF 0 Command.set_power_mode
           (mkSGPC3 Low 0 5) idle_bus).
  vm_compute. reflexivity.
Defined.

Section SessionRuns.

Variable kCrcInit : Z.

Lemma sendSynchronous_run (fuel : nat) (c : Command_t) (o : cSGPC3) (w : World) :
  getFeatureSet c <= m_featureSet o ->
  exists w',
    sendSynchronous fuel c (o, w)
    = Some (transfer_result c w, (after_transfer c o w, w')) /\
    trace w' = transfer_events c None w ++ trace w /\
    clock w' = tl (clock w) /\
    endStatus w' = tl (endStatus w) /\
    indeterminate w' = indeterminate w.
Proof.
  intros Hok. unfold sendSynchronous, sendCommandBare.
  unfold bind at 1, this; cbn [fst snd]. unfold isSupported.
  destruct (Z.ltb_spec (m_featureSet o) (getFeatureSet c)); [lia|].
  cbn [isSuccess negb].
  destruct (sendCommand_run fuel c None None o w) as (w' & Hrun & Ht & Hc & He & Hi & _).
  exists w'. repeat split; assumption.
Qed.

Lemma tvoc_init_continuous_run (fuel : nat) (o : cSGPC3) (w : World) :
  0 <= m_featureSet o ->
  exists w',
    tvoc_init_continuous fuel (o, w)
    = Some (if negb (u8 (hd 0 (endStatus w)) =? 0) then WriteError else Success,
            (after_transfer Command.tvoc_init_continuous o w, w')) /\
    trace w' = transfer_events Command.tvoc_init_continuous None w ++ trace w.
Proof.
  intros Hlevel. unfold tvoc_init_continuous.
  unfold bind at 1, this; cbn [fst snd]. unfold isSupported.
  change (getFeatureSet Command.tvoc_init_continuous) with 0.
  destruct (Z.ltb_spec (m_featureSet o) 0); [lia|]. cbn [isSuccess].
  destruct (sendSynchronous_run fuel Command.tvoc_init_continuous o w)
    as (w' & Hrun & Ht & _); [exact Hlevel|].
  exists w'. split; [|exact Ht]. rewrite Hrun. reflexivity.
Qed.

Lemma set_power_mode_synchronous_run (fuel : nat) (mode : PowerMode_t)
    (o : cSGPC3) (w : World) :
  6 <= m_featureSet o ->
  exists o' w',
    set_power_mode_synchronous kCrcInit fuel mode (o, w)
    = Some (if negb (u8 (hd 0 (endStatus w)) =? 0) then WriteError else Success,
            (o', w')) /\
    m_featureSet o' = m_featureSet o /\
    (m_powerMode o' = m_powerMode o \/ m_powerMode o' = mode).
Proof.
  intros Hlevel.
  unfold set_power_mode_synchronous, sendSynchronous_param.
  unfold bind at 1 2, this; cbn [fst snd]. unfold isSupported.
  change (getFeatureSet Command.set_power_mode) with 6.
  destruct (Z.ltb_spec (m_featureSet o) 6); [lia|]. cbn [isSuccess negb].
  destruct (sendCommandWithParam_run kCrcInit fuel Command.set_power_mode
              (u16 (PowerMode_to_Z mode)) o w) as (w' & paramBuf & Hrun & _).
  rewrite Hrun.
  replace (transfer_result Command.set_power_mode w)
    with (if negb (u8 (hd 0 (endStatus w)) =? 0) then WriteError else Success)
    by reflexivity.
  destruct (u8 (hd 0 (endStatus w)) =? 0); cbn [negb isSuccess];
    eexists; eexists; (split; [reflexivity|]); cbn; auto.
Qed.

End SessionRuns.

Section BeginRuns.

Variable kCrcInit : Z.
Variable featureSet_getProductType : Z -> Z.
Variable featureSet_getProductVersion : Z -> Z.
Variable ProductType_SGPC3 : Z.

Lemma sendAndGetSynchronous_run (fuel : nat) (c : Command_t) (response : Z)
    (o : cSGPC3) (w : World) :
  getFeatureSet c <= m_featureSet o ->
  exists w' e r,
    sendAndGetSynchronous kCrcInit fuel c response (o, w)
    = Some ((e, r), (after_transfer c o w, w')) /\
    In e [Success; WriteError; ReadError; BadCRC] /\
    (transfer_result c w <> Success -> e = transfer_result c w) /\
    trace w' = transfer_events c None w ++ trace w /\
    (e <> Success -> r = response).
Proof.
  intros Hok. unfold sendAndGetSynchronous.
  unfold bind at 1, this; cbn [fst snd]. unfold isSupported.
  destruct (Z.ltb_spec (m_featureSet o) (getFeatureSet c)); [lia|].
  cbn [isSuccess negb].
  unfold sendCommandWithResponse.
  unfold bind at 1; rewrite uninitialised_run.
  unfold bind at 1.
  match goal with |- context [sendCommand fuel c ?p ?r (o, ?w1)] =>
    destruct (sendCommand_run fuel c p r o w1) as (w' & Hrun & Htrace & _)
  end.
  rewrite Hrun, transfer_result_with_indeterminate.
  exists w'.
  destruct (transfer_result_cases c w) as [-> | [-> | ->]]; cbn [isSuccess negb].
  - match goal with |- context [negb ?b] => destruct b end; cbn [negb];
      eexists; eexists; (split; [reflexivity|]);
      (split; [cbn; auto|]); (split; [congruence|]);
      (split; [exact Htrace | congruence]).
  - eexists; eexists; (split; [reflexivity|]);
      (split; [cbn; auto|]); (split; [congruence|]);
      (split; [exact Htrace | congruence]).
  - eexists; eexists; (split; [reflexivity|]);
      (split; [cbn; auto|]); (split; [congruence|]);
      (split; [exact Htrace | congruence]).
Qed.

(** Every run of [begin]. *)
Lemma begin_run (fuel : nat) (mode : PowerMode_t) (o : cSGPC3) (w : World) :
  0 <= m_featureSet o ->
  exists e o' w',
    begin kCrcInit featureSet_getProductType featureSet_getProductVersion
          ProductType_SGPC3 fuel mode (o, w)
    = Some (e, (o', w')) /\
    In e [Success; WriteError; ReadError; BadCRC; WrongDeviceType] /\
    (m_featureSet o' = 0 /\ e <> Success \/ 6 <= m_featureSet o' <= 255) /\
    (m_powerMode o' = Low \/ m_powerMode o' = mode) /\
    (u8 (hd 0 (endStatus w)) <> 0 ->
     e = WriteError /\ m_featureSet o' = 0 /\ m_powerMode o' = Low /\
     m_tAvail o' = u32 (u32 (hd 0 (tl (clock w))) + 10 + 1) /\
     trace w' = [EvTransmit 0x58 [0x20; 0x2F] (u8 (hd 0 (endStatus w)))] ++ trace w).
Proof.
  intros Hlevel. unfold begin.
  unfold bind at 1 2 3; run.
  unfold bind at 1.
  match goal with |- context [sendAndGetSynchronous _ _ ?c ?r (?o1, ?w1)] =>
    destruct (sendAndGetSynchronous_run fuel c r o1 w1)
      as (w' & e & fs & Hrun & He & Hfail & Htrace & _); [exact Hlevel|]
  end.
  rewrite Hrun.
  unfold bind at 1; run.
  assert (Hnack : u8 (hd 0 (endStatus w)) <> 0 ->
                  e = WriteError /\
                  trace w' = [EvTransmit 0x58 [0x20; 0x2F] (u8 (hd 0 (endStatus w)))]
                             ++ trace w).
  { intros Hst. unfold transfer_result in Hfail. unfold transfer_events in Htrace.
    run_in Hfail. run_in Htrace.
    destruct (Z.eqb_spec (u8 (hd 0 (endStatus w))) 0) as [|_]; [contradiction|].
    cbn [negb] in *. split; [apply Hfail; discriminate | exact Htrace]. }
  destruct e; cbn [isSuccess negb];
    try (exfalso; cbn in He; intuition discriminate);
    [ | eexists; eexists; eexists; (split; [reflexivity|]);
        cbn [m_featureSet m_powerMode m_tAvail fst snd after_transfer];
        (split; [cbn; auto 10|]);
        (split; [left; split; [reflexivity | discriminate]|]);
        (split; [left; reflexivity|]);
        intros Hst; destruct (Hnack Hst) as [HeW Htr];
        try discriminate HeW;
        repeat split; try reflexivity; exact Htr .. ].
  destruct (Z.eqb_spec (featureSet_getProductType fs) ProductType_SGPC3) as [Htype|Htype];
    cbn [negb].
  2:{ eexists; eexists; eexists; (split; [reflexivity|]).
      cbn [m_featureSet m_powerMode fst snd].
      split; [cbn; auto 10|]. split; [left; split; [reflexivity | discriminate]|].
      split; [left; reflexivity|].
      intros Hst. destruct (Hnack Hst) as [HeW _]. discriminate HeW. }
  destruct (Z.ltb_spec (u8 (featureSet_getProductVersion fs)) 6) as [Hold|Hnew].
  { eexists; eexists; eexists; (split; [reflexivity|]).
    cbn [m_featureSet m_powerMode fst snd].
    split; [cbn; auto 10|]. split; [left; split; [reflexivity | discriminate]|].
    split; [left; reflexivity|].
    intros Hst. destruct (Hnack Hst) as [HeW _]. discriminate HeW. }
  unfold bind at 1; run.
  unfold bind at 1.
  match goal with |- context [set_power_mode_synchronous _ _ _ (?o1, ?w1)] =>
    destruct (set_power_mode_synchronous_run kCrcInit fuel mode o1 w1)
      as (o2 & w2 & Hmode & Hfs2 & Hpm2); [exact Hnew|]
  end.
  rewrite Hmode. cbn [m_featureSet m_powerMode] in Hfs2, Hpm2.
  unfold bind at 1.
  destruct (tvoc_init_continuous_run fuel o2 w2) as (w3 & Hinit & _); [lia|].
  rewrite Hinit.
  eexists; eexists; eexists; (split; [reflexivity|]).
  cbn [m_featureSet m_powerMode after_transfer].
  pose proof (u8_range (featureSet_getProductVersion fs)) as Hu8. unfold is_u8 in Hu8.
  split; [destruct (negb (u8 (hd 0 (endStatus w2)) =? 0));
          [right; left; reflexivity | left; reflexivity]|].
  split; [right; rewrite Hfs2; lia|].
  split; [exact Hpm2|].
  intros Hst. destruct (Hnack Hst) as [HeW _]. discriminate HeW.
Qed.

End BeginRuns.

(** [begin] always returns, with one of five results; it leaves the stored
    feature level at 0 (and then the result is not [Success]) or at a
    version of at least 6, and the power mode at [Low] or at the mode asked
    for. *)
Theorem begin_outcome (kCrcInit : Z)
    (featureSet_getProductType featureSet_getProductVersion : Z -> Z)
    (ProductType_SGPC3 : Z) (fuel : nat) (mode : PowerMode_t) (o : cSGPC3) (w : World) :
  0 <= m_featureSet o ->
  exists e o' w',
    begin kCrcInit featureSet_getProductType featureSet_getProductVersion
          ProductType_SGPC3 fuel mode (o, w)
    = Some (e, (o', w')) /\
    In e [Success; WriteError; ReadError; BadCRC; WrongDeviceType] /\
    (m_featureSet o' = 0 /\ e <> Success \/ 6 <= m_featureSet o' <= 255) /\
    (m_powerMode o' = Low \/ m_powerMode o' = mode).
Proof.
  intros Hlevel.
  destruct (begin_run kCrcInit featureSet_getProductType featureSet_getProductVersion
              ProductType_SGPC3 fuel mode o w Hlevel)
    as (e & o' & w' & Hrun & He & Hfs & Hpm & _).
  exists e, o', w'. repeat split; assumption.
Qed.

Lemma begin_outcome_power_mode_nack :
  exists e o' w',
    begin sensirion_crc_init sensirion_getProductType sensirion_getProductVersion
          sensirion_SGPC3 10 UltraLow (fst power_mode_nack, snd power_mode_nack)
    = Some (e, (o', w')) /\
    In e [Success; WriteError; ReadError; BadCRC; WrongDeviceType] /\
    (m_featureSet o' = 0 /\ e <> Success \/ 6 <= m_featureSet o' <= 255) /\
    (m_powerMode o' = Low \/ m_powerMode o' = UltraLow).
Proof.
  apply (begin_outcome sensirion_crc_init sensirion_getProductType
           sensirion_getProductVersion sensirion_SGPC3 10 UltraLow
           (fst power_mode_nack) (snd power_mode_nack)).
  vm_compute. discriminate.
Defined.

(** When the very first write of [begin] is not acknowledged (no sensor on
    the bus), [begin] returns [WriteError] after that single transmission
    of opcode 0x202F, with the feature level 0, the power mode [Low], and
    [m_tAvail] 11 ms after the second clock reading. *)
Theorem begin_without_sensor (kCrcInit : Z)
    (featureSet_getProductType featureSet_getProductVersion : Z -> Z)
    (ProductType_SGPC3 : Z) (fuel : nat) (mode : PowerMode_t) (o : cSGPC3) (w : World) :
  0 <= m_featureSet o ->
  u8 (hd 0 (endStatus w)) <> 0 ->
  exists w',
    begin kCrcInit featureSet_getProductType featureSet_getProductVersion
          ProductType_SGPC3 fuel mode (o, w)
    = Some (WriteError,
            (mkSGPC3 Low (u32 (u32 (hd 0 (tl (clock w))) + 10 + 1)) 0, w')) /\
    trace w' = EvTransmit 0x58 [0x20; 0x2F] (u8 (hd 0 (endStatus w))) :: trace w.
Proof.
  intros Hlevel Hst.
  destruct (begin_run kCrcInit featureSet_getProductType featureSet_getProductVersion
              ProductType_SGPC3 fuel mode o w Hlevel)
    as (e & o' & w' & Hrun & _ & _ & _ & Hnack).
  destruct (Hnack Hst) as (-> & Hfs & Hpm & Hta & Htr).
  exists w'. split; [|exact Htr].
  rewrite Hrun. destruct o' as [pm ta fs]. cbn in Hfs, Hpm, Hta. subst. reflexivity.
Qed.

Lemma begin_without_sensor_nack :
  exists w',
    begin sensirion_crc_init sensirion_getProductType sensirion_getProductVersion
          sensirion_SGPC3 0 UltraLow
          (mkSGPC3 UltraLow 0 9, with_endStatus [2] (with_clock [1000; 1001] idle_bus))
    = Some (WriteError, (mkSGPC3 Low 1012 0, w')) /\
    trace w' = [EvTransmit 0x58 [0x20; 0x2F] 2].
Proof.
  apply (begin_without_sensor sensirion_crc_init sensirion_getProductType
           sensirion_getProductVersion sensirion_SGPC3 0 UltraLow
           (mkSGPC3 UltraLow 0 9) (with_endStatus [2] (with_clock [1000; 1001] idle_bus)));
    vm_compute; discriminate.
Defined.

(** [tvoc_init_continuous] sends opcode 0x20AE alone, waits 10 ms if the
    write was acknowledged, and reads nothing; its result is [WriteError]
    or [Success] as the write status says, never [NotSupported]. *)
Theorem tvoc_init_continuous_outcome (fuel : nat) (o : cSGPC3) (w : World) :
  0 <= m_featureSet o ->
  let status := u8 (hd 0 (endStatus w)) in
  exists w',
    tvoc_init_continuous fuel (o, w)
    = Some (if status =? 0 then Success else WriteError,
            (mkSGPC3 (m_powerMode o) (u32 (u32 (hd 0 (clock w)) + 10 + 1)) (m_featureSet o),
             w')) /\
    trace w' = (if status =? 0 then [EvDelay 10] else [])
               ++ EvTransmit 0x58 [0x20; 0xAE] status :: trace w.
Proof.
  intros Hlevel status.
  destruct (tvoc_init_continuous_run fuel o w Hlevel) as (w' & Hrun & Htrace).
  exists w'. unfold transfer_events in Htrace. run_in Htrace.
  change (getResponseLength Command.tvoc_init_continuous) with 0 in Htrace.
  change (getDelayMs Command.tvoc_init_continuous) with 10 in Htrace.
  change (getCommand Command.tvoc_init_continuous) with 0x20AE in Htrace.
  fold status in Hrun, Htrace.
  rewrite Hrun, Htrace.
  destruct (status =? 0); split; reflexivity.
Qed.

Lemma tvoc_init_continuous_outcome_ack :
  exists w',
    tvoc_init_continuous 0 (mkSGPC3 Low 0 6, with_endStatus [0] (with_clock [500] idle_bus))
    = Some (Success, (mkSGPC3 Low 511 6, w')) /\
    trace w' = [EvDelay 10; EvTransmit 0x58 [0x20; 0xAE] 0].
Proof.
  apply (tvoc_init_continuous_outcome 0 (mkSGPC3 Low 0 6)
           (with_endStatus [0] (with_clock [500] idle_bus))).
  vm_compute. discriminate.
Defined.

(** [measure_tvoc_synchronous] is never refused by the gate; it sends
    opcode 0x2008, and leaves the caller's variable untouched unless it
    returns [Success]. *)
Theorem measure_tvoc_synchronous_outcome (kCrcInit : Z) (fuel : nat) (result : Z)
    (o : cSGPC3) (w : World) :
  0 <= m_featureSet o ->
  exists e r st' events,
    measure_tvoc_synchronous kCrcInit fuel result (o, w) = Some ((e, r), st') /\
    In e [Success; WriteError; ReadError; BadCRC] /\
    (e <> Success -> r = result) /\
    trace (snd st')
    = events ++ EvTransmit 0x58 [0x20; 0x08] (u8 (hd 0 (endStatus w))) :: trace w.
Proof.
  intros Hlevel. unfold measure_tvoc_synchronous.
  destruct (sendAndGetSynchronous_run kCrcInit fuel Command.measure_tvoc result o w)
    as (w' & e & r & Hrun & He & _ & Htrace & Hout); [exact Hlevel|].
  exists e, r. eexists.
  exists (if negb (u8 (hd 0 (endStatus w)) =? 0) then []
          else [EvRequest kAddress 3
                  (u8 (Z.of_nat (length (firstn 3 (hd [] (device w))))));
                EvDelay 50]).
  split; [exact Hrun|]. split; [exact He|]. split; [exact Hout|].
  cbn [snd]. rewrite Htrace. unfold transfer_events.
  destruct (negb (u8 (hd 0 (endStatus w)) =? 0)); reflexivity.
Qed.

Lemma measure_tvoc_synchronous_outcome_nack :
  exists e r st' events,
    measure_tvoc_synchronous 0xFF 0 7 (mkSGPC3 Low 0 0, with_endStatus [2] idle_bus)
    = Some ((e, r), st') /\
    In e [Success; WriteError; ReadError; BadCRC] /\
    (e <> Success -> r = 7) /\
    trace (snd st')
    = events ++ EvTransmit 0x58 [0x20; 0x08]
                  (u8 (hd 0 (endStatus (with_endStatus [2] idle_bus))))
      :: trace (with_endStatus [2] idle_bus).
Proof.
  apply (measure_tvoc_synchronous_outcome 0xFF 0 7 (mkSGPC3 Low 0 0)
           (with_endStatus [2] idle_bus)).
  vm_compute. discriminate.
Defined.

(** ** What the checksum detects *)

Section Detection.

Lemma crc8_unshift_shift (x : Z) : is_u8 x -> crc8_unshift (crc8_shift x) = x.
Proof.
  intros Hx. apply Z.eqb_eq.
  apply (forallb_below 256 (fun x => crc8_unshift (crc8_shift x) =? x));
    [vm_compute; reflexivity | exact Hx].
Qed.

Lemma crc8_shift_range (x : Z) : is_u8 (crc8_shift x).
Proof. unfold crc8_shift. destruct (Z.testbit x 7); apply u8_range. Qed.

Lemma iter_shift_range (n : nat) (x : Z) : is_u8 x -> is_u8 (Nat.iter n crc8_shift x).
Proof.
  intros Hx. destruct n as [|n]; [exact Hx|]. cbn [Nat.iter nat_rect].
  apply crc8_shift_range.
Qed.

Lemma iter_unshift_shift (n : nat) (x : Z) :
  is_u8 x -> Nat.iter n crc8_unshift (Nat.iter n crc8_shift x) = x.
Proof.
  intros Hx. induction n as [|n IH]; [reflexivity|].
  rewrite Nat.iter_succ_r. rewrite Nat.iter_succ.
  rewrite crc8_unshift_shift by (apply iter_shift_range; exact Hx).
  exact IH.
Qed.

Lemma lxor_cancel_r (a a' b : Z) : Z.lxor a b = Z.lxor a' b -> a = a'.
Proof.
  intros H.
  assert (Hback : forall c, Z.lxor (Z.lxor c b) b = c).
  { intros c. rewrite Z.lxor_assoc, Z.lxor_nilpotent. apply Z.lxor_0_r. }
  rewrite <- (Hback a), H. apply Hback.
Qed.

(** One byte step is one-to-one in the accumulator and in the byte. *)
Lemma crc_byte_injective (crc8 crc8' b b' : Z) :
  is_u8 crc8 -> is_u8 crc8' -> is_u8 b -> is_u8 b' ->
  crc_byte crc8 b = crc_byte crc8' b' -> Z.lxor crc8 b = Z.lxor crc8' b'.
Proof.
  intros Hc Hc' Hb Hb' Heq.
  rewrite !crc_byte_refines in Heq by assumption.
  unfold crc8_bitwise_byte in Heq.
  rewrite <- (iter_unshift_shift 8 (Z.lxor crc8 b)) by (apply lxor_u8; assumption).
  rewrite <- (iter_unshift_shift 8 (Z.lxor crc8' b')) by (apply lxor_u8; assumption).
  rewrite Heq. reflexivity.
Qed.

Lemma crc_seed_injective (buf : list Z) :
  Forall is_u8 buf ->
  forall seed seed', is_u8 seed -> is_u8 seed' ->
  crc buf (length buf) seed = crc buf (length buf) seed' -> seed = seed'.
Proof.
  induction 1 as [|b buf Hb _ IH]; intros seed seed' Hs Hs' Heq; cbn [crc length hd tl] in Heq.
  - exact Heq.
  - apply IH in Heq; try apply crc_byte_range.
    apply crc_byte_injective in Heq; try assumption.
    apply lxor_cancel_r in Heq. exact Heq.
Qed.

End Detection.

(** The checksum of bytes is a byte whenever the initial value is one. *)
Theorem crc_is_byte (buf : list Z) (nBuf : nat) (seed : Z) :
  is_u8 seed -> 0 <= crc buf nBuf seed <= 255.
Proof.
  intros Hs. pose proof (crc_range buf nBuf seed Hs) as Hr.
  unfold is_u8 in Hr. lia.
Qed.

Lemma crc_is_byte_beef : 0 <= crc [0xBE; 0xEF] 2 0xFF <= 255.
Proof. apply (crc_is_byte [0xBE; 0xEF] 2 0xFF). unfold is_u8. lia. Defined.

(** Two messages that differ in exactly one byte never have the same
    checksum: every error confined to a single byte, a single flipped bit
    in particular, is detected, at any position and for any length. *)
Theorem crc_detects_single_byte_error (before after : list Z) (x y seed : Z) :
  Forall is_u8 before -> Forall is_u8 after ->
  is_u8 x -> is_u8 y -> is_u8 seed ->
  x <> y ->
  crc (before ++ x :: after) (length (before ++ x :: after)) seed
  <> crc (before ++ y :: after) (length (before ++ y :: after)) seed.
Proof.
  intros Hbefore Hafter Hx Hy Hs Hxy Heq.
  rewrite !length_app in Heq.
  rewrite !crc_app in Heq.
  cbn [crc length hd tl] in Heq.
  pose proof (crc_range before (length before) seed Hs) as Hacc.
  apply crc_seed_injective in Heq; try assumption; try apply crc_byte_range.
  apply crc_byte_injective in Heq; try assumption.
  apply Hxy.
  rewrite Z.lxor_comm, (Z.lxor_comm _ y) in Heq.
  apply lxor_cancel_r in Heq. exact Heq.
Qed.

Lemma crc_detects_single_byte_error_beef :
  crc ([0xBE] ++ 0xEF :: []) (length ([0xBE] ++ 0xEF :: [])) 0xFF
  <> crc ([0xBE] ++ 0xEE :: []) (length ([0xBE] ++ 0xEE :: [])) 0xFF.
Proof.
  apply (crc_detects_single_byte_error [0xBE] [] 0xEF 0xEE 0xFF);
    repeat constructor; unfold is_u8; try lia; discriminate.
Defined.

(** Started from two different initial values, the checksums of the same
    message differ. *)
Theorem crc_separates_seeds (buf : list Z) (seed seed' : Z) :
  Forall is_u8 buf -> is_u8 seed -> is_u8 seed' -> seed <> seed' ->
  crc buf (length buf) seed <> crc buf (length buf) seed'.
Proof.
  intros Hbuf Hs Hs' Hne Heq. apply Hne.
  exact (crc_seed_injective buf Hbuf seed seed' Hs Hs' Heq).
Qed.

Lemma crc_separates_seeds_beef :
  crc [0xBE; 0xEF] (length [0xBE; 0xEF]) 0xFF <> crc [0xBE; 0xEF] (length [0xBE; 0xEF]) 0x00.
Proof.
  apply (crc_separates_seeds [0xBE; 0xEF] 0xFF 0x00);
    repeat constructor; unfold is_u8; try lia; discriminate.
Defined.

(** The checksum can be computed in pieces: running [crc] over the first
    part of a buffer and then over the rest, started from the first
    result, gives the checksum of the whole. *)
Theorem crc_chunks (first rest : list Z) (n : nat) (seed : Z) :
  crc (first ++ rest) (length first + n) seed
  = crc rest n (crc first (length first) seed).
Proof.
  revert seed. induction first as [|b first IH]; intros seed; cbn; [reflexivity|].
  apply IH.
Qed.

(** ** Timing across the wrap of the millisecond counter *)

(** After every [sendCommand], [m_tAvail] lies [delay + 1] milliseconds,
    between 1 and 256, after the clock reading taken on entry, counted
    modulo 2^32: also when the addition wraps. *)
Theorem sendCommand_tAvail_ahead (fuel : nat) (c : Command_t)
    (pParamBytes pResultBytes : option (list Z)) (o : cSGPC3) (w : World) :
  let tNow := u32 (hd 0 (clock w)) in
  exists e st',
    sendCommand fuel c pParamBytes pResultBytes (o, w) = Some (e, st') /\
    u32 (m_tAvail (fst st') - tNow) = getDelayMs c + 1 /\
    1 <= getDelayMs c + 1 <= 256.
Proof.
  intros tNow.
  destruct (sendCommand_run fuel c pParamBytes pResultBytes o w) as (w' & Hrun & _).
  pose proof (accessor_ranges c) as (_ & _ & _ & _ & Hd).
  eexists; eexists. split; [exact Hrun|]. split; [|lia].
  cbn [fst m_tAvail]. fold tNow. unfold u32.
  rewrite Zminus_mod_idemp_l.
  replace (tNow + getDelayMs c + 1 - tNow) with (getDelayMs c + 1) by lia.
  apply Z.mod_small. lia.
Qed.

(** [handleChipReset(when)] selects the [Low] power mode, leaves the feature
    level as it is, and puts [m_tAvail] 600 ms after [when], counted modulo
    2^32. *)
Theorem handleChipReset_effect (when : Z) (o : cSGPC3) (w : World) :
  0 <= when < 2 ^ 32 ->
  exists t,
    handleChipReset when (o, w) = Some (tt, (mkSGPC3 Low t (m_featureSet o), w)) /\
    0 <= t < 2 ^ 32 /\ u32 (t - when) = 600.
Proof.
  intros Hwhen. exists (u32 (when + kTpuMs)).
  split; [destruct w; reflexivity|].
  unfold u32, kTpuMs. split; [apply Z.mod_pos_bound; lia|].
  rewrite Zminus_mod_idemp_l.
  replace (when + 600 - when) with 600 by lia. reflexivity.
Qed.

Lemma handleChipReset_effect_near_wrap :
  exists t,
    handleChipReset 0xFFFFFFF0 (mkSGPC3 UltraLow 0 6, idle_bus)
    = Some (tt, (mkSGPC3 Low t 6, idle_bus)) /\
    0 <= t < 2 ^ 32 /\ u32 (t - 0xFFFFFFF0) = 600.
Proof.
  apply (handleChipReset_effect 0xFFFFFFF0 (mkSGPC3 UltraLow 0 6) idle_bus). lia.
Defined.

(** Below feature level 6, [set_power_mode_synchronous] is refused before
    anything reaches the bus: the result is [NotSupported] and the object,
    its power mode included, and the world are as they were. *)
Theorem set_power_mode_synchronous_refused (kCrcInit : Z) (fuel : nat)
    (mode : PowerMode_t) (o : cSGPC3) (w : World) :
  m_featureSet o < 6 ->
  set_power_mode_synchronous kCrcInit fuel mode (o, w) = Some (NotSupported, (o, w)).
Proof.
  intros Hlow. unfold set_power_mode_synchronous.
  unfold bind at 1.
  destruct (guarded_refusal kCrcInit fuel Command.set_power_mode o w)
    as (_ & Hparam & _); [exact Hlow|].
  rewrite Hparam. reflexivity.
Qed.

Lemma set_power_mode_synchronous_refused_level_0 :
  set_power_mode_synchronous 0xFF 0 UltraLow (mkSGPC3 Low 0 0, idle_bus)
  = Some (NotSupported, (mkSGPC3 Low 0 0, idle_bus)).
Proof.
  apply (set_power_mode_synchronous_refused 0xFF 0 UltraLow (mkSGPC3 Low 0 0) idle_bus).
  cbn. lia.
Defined.
